(** * Invocation routing and response classification

    A shallow embedding of the chat accelerator's two invokers
    ([app/bedrock_client.py], [app/ethicalzen_proxy_client.py]), of the
    credential selection and request signing they share
    ([app/signing.py]), of the verdict record ([app/models.py]) and of the
    [/chat] handler ([app/main.py]).

    A Python [str] is held by the bytes of its UTF-8 encoding, a [string]:
    equality, emptiness, concatenation and stripping a trailing [/] are the
    same on both.  What Python does to text by its Unicode tables,
    [str.upper()] and [float()], is library code and taken as it is
    ([PyLibs]).  A [float] is a binary64 number, as in Python. *)

From Stdlib Require Import Ascii String ZArith Floats.
From stdpp Require Import base strings gmap list pretty numbers.

Set Warnings "-register-all,-inexact-float".

Local Open Scope string_scope.
Local Open Scope Z_scope.

(** ** Text *)

Module Text.

Definition is_upper (c : ascii) : bool :=
  let n := nat_of_ascii c in (Nat.leb 65 n) && (Nat.leb n 90).

Definition lower_char (c : ascii) : ascii :=
  if is_upper c then ascii_of_nat (nat_of_ascii c + 32) else c.

(** [bytes.lower()]: the letters [A] to [Z] go to lower case, every other
    byte stays.  httpx compares header names by it; on an ASCII name it is
    [str.lower()] as well. *)
Fixpoint lower (s : string) : string :=
  match s with
  | EmptyString => EmptyString
  | String c r => String (lower_char c) (lower r)
  end.

(** Truth value of a [str]: every string but the empty one. *)
Definition truthy (s : string) : bool :=
  match s with EmptyString => false | String _ _ => true end.

(** Truth value of an [Optional[str]]. *)
Definition opt_truthy (o : option string) : bool :=
  match o with Some s => truthy s | None => false end.

(** [s.rstrip(c)] for a one-character argument. *)
Fixpoint rstrip_char (c : ascii) (s : string) : string :=
  match s with
  | EmptyString => EmptyString
  | String a r =>
      match rstrip_char c r with
      | EmptyString => if Ascii.eqb a c then EmptyString else String a EmptyString
      | r' => String a r'
      end
  end.

Definition nl : string := String (ascii_of_nat 10) EmptyString.

End Text.

(** ** Python values and exceptions *)

(** The values [resp.json()] can return.  A number keeps the text of its
    literal; a [dict] keeps its items. *)
Inductive pyval : Type :=
| PyNone
| PyBool (b : bool)
| PyNum (lit : string)
| PyStr (s : string)
| PyList (items : list pyval)
| PyDict (items : list (string * pyval)).

(** The exceptions the modelled code can meet, all of them subclasses of
    [Exception]. *)
Inductive PyExc : Type :=
| KeyError (key : string)
| AttributeError
| JSONDecodeError
| ValueError
| ValidationError
| ConnectError
| TimeoutException.

Inductive Outcome (A : Type) : Type :=
| Returned (a : A)
| Raised (e : PyExc).
Arguments Returned {A} a.
Arguments Raised {A} e.

(** The [float] that [float()] makes of a text, held as that text. *)
Inductive PyFloat : Type := FloatOf (lit : string).

(** ** [app/models.py] *)

Inductive ChatMode : Type := DIRECT | MODE_A.

Inductive BlockedBy : Type := NONE | BEDROCK_GUARDRAIL | ETHICALZEN_GUARDRAIL.

Record ChatRequest : Type := {
  message : string;
  mode : ChatMode;
  model_id : string;
  guardrail_identifier : option string;
  guardrail_version : option string;
}.

Record ChatResponse : Type := {
  response : string;
  resp_mode : ChatMode;
  model : string;
  blocked : bool;
  blocked_by : BlockedBy;
  trace_id : option string;
  ethicalzen_status : option string;
  validation_ms : option PyFloat;
  total_latency_ms : float;
}.

(** The constructor call [ChatResponse(response=..., ...)].  Of the
    arguments the invokers pass, only [response] can have the wrong type (it
    may come out of a JSON body): pydantic then raises [ValidationError].
    Where a call site leaves [blocked], [blocked_by], [trace_id],
    [ethicalzen_status] or [validation_ms] out, the class's defaults
    [False], [BlockedBy.NONE] and [None] are passed here. *)
Definition ChatResponse_new (response : pyval) (mode : ChatMode)
    (model : string) (blocked : bool) (blocked_by : BlockedBy)
    (trace_id ethicalzen_status : option string)
    (validation_ms : option PyFloat) (total_latency_ms : float)
  : Outcome ChatResponse :=
  match response with
  | PyStr s =>
      Returned {| response := s; resp_mode := mode; model := model;
                  blocked := blocked; blocked_by := blocked_by;
                  trace_id := trace_id;
                  ethicalzen_status := ethicalzen_status;
                  validation_ms := validation_ms;
                  total_latency_ms := total_latency_ms |}
  | _ => Raised ValidationError
  end.

(** ** The world outside the program *)

(** [httpx.Response]: the status, the header list as received, the body
    text, and what [resp.json()] gives ([None] when it raises
    [JSONDecodeError]). *)
Record Response : Type := {
  status_code : Z;
  headers : list (string * string);
  text : string;
  json : option pyval;
}.

(** What [client.post(url, headers=..., content=...)] sends, with the
    client's timeout in seconds. *)
Record HttpRequest : Type := {
  req_url : string;
  req_headers : gmap string string;
  req_content : string;
  req_timeout : Z;
}.

(** [botocore.awsrequest.AWSRequest] as [sign_bedrock_request] builds it. *)
Record AWSRequest : Type := {
  aws_method : string;
  aws_url : string;
  aws_data : string;
  aws_headers : gmap string string;
}.

(** [botocore.credentials.Credentials] *)
Record Credentials : Type := {
  cred_access_key : string;
  cred_secret_key : string;
  cred_token : option string;
}.

(** What becomes of a posted request: a response, or one of the two
    failures of the call the design document names, a connection that
    cannot be made and the client's timeout.  The other ways a call can
    fail are not modelled, and no statement below says that these are the
    only ones. *)
Inductive NetOutcome : Type :=
| Responded (r : Response)
| ConnectionFailed
| TimedOut.

(** One run's surroundings: the process environment, the network, the
    successive readings of [time.perf_counter()] and the signer's clock. *)
Record World : Type := {
  environ : gmap string string;
  network : HttpRequest → NetOutcome;
  clock : nat → float;
  utcnow : string;
}.

(** What a run does to the outside, in order. *)
Inductive Event : Type :=
| EvSign (creds : Credentials) (service region : string) (r : AWSRequest)
| EvPost (r : HttpRequest)
| EvLog (r : ChatResponse) (guardrail_identifier guardrail_version : option string).

Record St : Type := { trace : list Event; ticks : nat }.

Definition st0 : St := {| trace := []; ticks := 0 |}.

(** Library code the program calls, taken as it is:
    [json.dumps(body).encode("utf-8")]; the headers an [AWSRequest] carries
    after [SigV4Auth(credentials, service, region).add_auth]; [str()] of a
    number, a list or a dict; [s.upper()], which maps by Unicode's tables
    (the dotless [i] goes to [I]); and whether [float(s)] accepts the text
    or raises [ValueError] (it accepts Unicode white space and digits as
    well as ASCII ones). *)
Class PyLibs : Type := {
  json_dumps_utf8 : pyval → string;
  sigv4_add_auth : Credentials → string → string → string → AWSRequest → gmap string string;
  str_compound : pyval → string;
  str_upper : string → string;
  float_accepts : string → bool;
}.

(** ** Computations: a world to read, a state to thread, an exception to
    raise *)

Definition M (A : Type) : Type := World → St → Outcome A * St.

Definition ret {A} (a : A) : M A := λ _ st, (Returned a, st).

Definition raise {A} (e : PyExc) : M A := λ _ st, (Raised e, st).

Definition bind {A B} (c : M A) (k : A → M B) : M B :=
  λ w st,
    match c w st with
    | (Returned a, st') => k a w st'
    | (Raised e, st') => (Raised e, st')
    end.

(** [try: c  except Exception: h] *)
Definition try_except {A} (c : M A) (h : M A) : M A :=
  λ w st,
    match c w st with
    | (Returned a, st') => (Returned a, st')
    | (Raised _, st') => h w st'
    end.

Definition lift {A} (o : Outcome A) : M A := λ _ st, (o, st).

Notation "'let*' x := c 'in' k" := (bind c (λ x, k))
  (at level 10, x name, c at level 100, k at level 200, only parsing).
Notation "'let*' ' p := c 'in' k" := (bind c (λ x, let 'p := x in k))
  (at level 10, p pattern, c at level 100, k at level 200, only parsing).

(** [os.environ.get(key)] *)
Definition environ_get (key : string) : M (option string) :=
  λ w st, (Returned (environ w !! key), st).

(** [os.environ.get(key, default)] *)
Definition environ_get_or (key dflt : string) : M string :=
  λ w st, (Returned (default dflt (environ w !! key)), st).

(** [os.environ[key]] *)
Definition environ_item (key : string) : M string :=
  λ w st,
    match environ w !! key with
    | Some v => (Returned v, st)
    | None => (Raised (KeyError key), st)
    end.

(** [time.perf_counter()] *)
Definition perf_counter : M float :=
  λ w st, (Returned (clock w (ticks st)),
           {| trace := trace st; ticks := S (ticks st) |}).

(** [async with httpx.AsyncClient(timeout=t) as client:
       resp = await client.post(url, headers=headers, content=content)] *)
Definition client_post (timeout : Z) (url : string)
    (hdrs : gmap string string) (content : string) : M Response :=
  λ w st,
    let r := {| req_url := url; req_headers := hdrs;
                req_content := content; req_timeout := timeout |} in
    let st' := {| trace := trace st ++ [EvPost r]; ticks := ticks st |} in
    match network w r with
    | Responded resp => (Returned resp, st')
    | ConnectionFailed => (Raised ConnectError, st')
    | TimedOut => (Raised TimeoutException, st')
    end.

(** ** Reading a response *)

(** [resp.headers.get(key)]: header names compare by their lower-cased
    bytes, and the values of a repeated header are joined with a comma and a
    space. *)
Definition headers_get (hs : list (string * string)) (key : string)
  : option string :=
  match List.filter (λ kv, String.eqb (Text.lower (fst kv)) (Text.lower key)) hs with
  | [] => None
  | kvs => Some (String.concat ", " (List.map snd kvs))
  end.

(** [resp.json()] *)
Definition resp_json (resp : Response) : Outcome pyval :=
  match json resp with
  | Some v => Returned v
  | None => Raised JSONDecodeError
  end.

Fixpoint items_get (items : list (string * pyval)) (key : string)
  : option pyval :=
  match items with
  | [] => None
  | (k, v) :: rest => if String.eqb k key then Some v else items_get rest key
  end.

(** [d.get(key, dflt)]; only a dict has the method. *)
Definition dict_get (d : pyval) (key : string) (dflt : pyval) : Outcome pyval :=
  match d with
  | PyDict items => Returned (default dflt (items_get items key))
  | _ => Raised AttributeError
  end.

(** [headers[key] = value] when [value] is truthy. *)
Definition set_if_truthy (key : string) (value : option string)
    (hdrs : gmap string string) : gmap string string :=
  match value with
  | Some v => if Text.truthy v then <[key := v]> hdrs else hdrs
  | None => hdrs
  end.

Section Accelerator.
Context `{PyLibs}.

(** [str(v)], as an f-string formats [v]. *)
Definition py_str (v : pyval) : string :=
  match v with
  | PyStr s => s
  | PyNone => "None"
  | PyBool true => "True"
  | PyBool false => "False"
  | _ => str_compound v
  end.

(** [SigV4Auth(creds, service, region).add_auth(r)], then
    [dict(r.headers)]. *)
Definition add_auth (creds : Credentials) (service region : string)
    (r : AWSRequest) : M (gmap string string) :=
  λ w st,
    (Returned (sigv4_add_auth creds service region (utcnow w) r),
     {| trace := trace st ++ [EvSign creds service region r];
        ticks := ticks st |}).

(** *** [app/signing.py] *)

Definition uses_bearer_token : M bool :=
  let* tok := environ_get "AWS_BEARER_TOKEN_BEDROCK" in
  ret (Text.opt_truthy tok).

Definition get_bedrock_endpoint (region model_id : string) : string :=
  "https://bedrock-runtime." +:+ region +:+ ".amazonaws.com"
  +:+ "/model/" +:+ model_id +:+ "/invoke".

Definition build_bearer_headers
    (guardrail_identifier guardrail_version : option string)
  : M (gmap string string) :=
  let* token := environ_item "AWS_BEARER_TOKEN_BEDROCK" in
  let headers : gmap string string :=
    <["Authorization" := "Bearer " +:+ token]>
      (<["Accept" := "application/json"]>
         (<["Content-Type" := "application/json"]> ∅)) in
  let headers :=
    set_if_truthy "X-Amzn-Bedrock-GuardrailIdentifier" guardrail_identifier headers in
  let headers :=
    set_if_truthy "X-Amzn-Bedrock-GuardrailVersion" guardrail_version headers in
  ret headers.

Definition sign_bedrock_request (region model_id : string) (body : pyval)
    (guardrail_identifier guardrail_version : option string)
  : M (string * gmap string string * string) :=
  let* access_key := environ_item "AWS_ACCESS_KEY_ID" in
  let* secret_key := environ_item "AWS_SECRET_ACCESS_KEY" in
  let* session_token := environ_get "AWS_SESSION_TOKEN" in
  let credentials :=
    {| cred_access_key := access_key; cred_secret_key := secret_key;
       cred_token := session_token |} in
  let url := get_bedrock_endpoint region model_id in
  let body_bytes := json_dumps_utf8 body in
  let headers : gmap string string :=
    <["Accept" := "application/json"]>
      (<["Content-Type" := "application/json"]> ∅) in
  let headers :=
    set_if_truthy "X-Amzn-Bedrock-GuardrailIdentifier" guardrail_identifier headers in
  let headers :=
    set_if_truthy "X-Amzn-Bedrock-GuardrailVersion" guardrail_version headers in
  let aws_request :=
    {| aws_method := "POST"; aws_url := url; aws_data := body_bytes;
       aws_headers := headers |} in
  let* signed_headers := add_auth credentials "bedrock" region aws_request in
  ret (url, signed_headers, body_bytes).

(** *** [app/bedrock_client.py] *)

Definition LLAMA_PROMPT_TEMPLATE (message : string) : string :=
  "<|begin_of_text|><|start_header_id|>user<|end_header_id|>"
  +:+ Text.nl +:+ Text.nl
  +:+ message +:+ "<|eot_id|><|start_header_id|>assistant<|end_header_id|>"
  +:+ Text.nl +:+ Text.nl.

Definition build_invoke_body (message : string) : pyval :=
  PyDict [ ("prompt", PyStr (LLAMA_PROMPT_TEMPLATE message));
           ("max_gen_len", PyNum "512");
           ("temperature", PyNum "0.7");
           ("top_p", PyNum "0.9") ].

(** Lines 78 to 125 of [invoke_bedrock_direct]: what it does with the
    response once the call has come back. *)
Definition classify_direct (model_id : string) (resp : Response)
    (elapsed_ms : float) : M ChatResponse :=
  if status_code resp =? 400 then
    let* error_msg :=
      try_except
        (let* error_body := lift (resp_json resp) in
         lift (dict_get error_body "message" (PyStr (text resp))))
        (ret (PyStr (text resp))) in
    lift (ChatResponse_new
            (PyStr ("[BLOCKED by Bedrock Guardrail] " +:+ py_str error_msg))
            DIRECT model_id true BEDROCK_GUARDRAIL None None None elapsed_ms)
  else if negb (status_code resp =? 200) then
    lift (ChatResponse_new
            (PyStr ("[ERROR] Bedrock returned " +:+ pretty (status_code resp)
                    +:+ ": " +:+ text resp))
            DIRECT model_id false NONE None None None elapsed_ms)
  else
    let* body := lift (resp_json resp) in
    let* generation := lift (dict_get body "generation" (PyStr "")) in
    let guardrail_action :=
      headers_get (headers resp) "x-amzn-bedrock-guardrail-action" in
    if bool_decide (guardrail_action = Some "INTERVENED") then
      lift (ChatResponse_new
              (PyStr ("[BLOCKED by Bedrock Guardrail] " +:+ py_str generation))
              DIRECT model_id true BEDROCK_GUARDRAIL None None None elapsed_ms)
    else
      lift (ChatResponse_new generation
              DIRECT model_id false NONE None None None elapsed_ms).

Definition invoke_bedrock_direct (message model_id : string)
    (guardrail_identifier guardrail_version : option string)
  : M ChatResponse :=
  let* region := environ_get_or "AWS_REGION" "us-east-1" in
  let body := build_invoke_body message in
  let url := get_bedrock_endpoint region model_id in
  let* bearer := uses_bearer_token in
  let* '(url, headers, body_bytes) :=
    (if bearer then
       let* headers := build_bearer_headers guardrail_identifier guardrail_version in
       ret (url, headers, json_dumps_utf8 body)
     else
       sign_bedrock_request region model_id body
         guardrail_identifier guardrail_version) in
  let* start := perf_counter in
  let* resp := client_post 30 url headers body_bytes in
  let* stop := perf_counter in
  let elapsed_ms := ((stop - start) * 1000)%float in
  classify_direct model_id resp elapsed_ms.

(** *** [app/ethicalzen_proxy_client.py] *)

Definition _get_proxy_url : M string :=
  let* base := environ_get_or "ETHICALZEN_PROXY_URL" "https://gateway.ethicalzen.ai" in
  ret (Text.rstrip_char "/" base +:+ "/api/proxy").

Definition forward_keys : list string :=
  [ "Authorization"; "X-Amz-Date"; "X-Amz-Security-Token";
    "X-Amz-Content-Sha256"; "X-Amzn-Bedrock-GuardrailIdentifier";
    "X-Amzn-Bedrock-GuardrailVersion" ].

(** [for key in keys: if key in auth_headers:
       proxy_headers[key] = auth_headers[key]] *)
Definition forward_headers (keys : list string)
    (auth_headers proxy_headers : gmap string string)
  : gmap string string :=
  fold_left
    (λ acc key,
       match auth_headers !! key with
       | Some v => <[key := v]> acc
       | None => acc
       end)
    keys proxy_headers.

(** [float(s)]: the value, or [ValueError]. *)
Definition py_float (s : string) : Outcome PyFloat :=
  if float_accepts s then Returned (FloatOf s) else Raised ValueError.

(** [acvps_status and acvps_status.upper() in
     ("BLOCKED", "REJECTED", "DENIED")] *)
Definition acvps_blocks (acvps_status : option string) : bool :=
  match acvps_status with
  | Some s =>
      Text.truthy s
      && existsb (String.eqb (str_upper s)) ["BLOCKED"; "REJECTED"; "DENIED"]
  | None => false
  end.

(** Lines 103 to 197 of [invoke_via_proxy]: what it does with the
    response once the call has come back. *)
Definition classify_proxy (model_id : string) (resp : Response)
    (elapsed_ms : float) : M ChatResponse :=
  let acvps_status := headers_get (headers resp) "X-ACVPS-Status" in
  let trace_id := headers_get (headers resp) "X-ACVPS-Trace-ID" in
  let validation_ms_raw := headers_get (headers resp) "X-ACVPS-Validation-Ms" in
  let* validation_ms :=
    match validation_ms_raw with
    | Some raw =>
        if Text.truthy raw
        then let* f := lift (py_float raw) in ret (Some f)
        else ret None
    | None => ret None
    end in
  if acvps_blocks acvps_status then
    let* error_msg :=
      try_except
        (let* error_body := lift (resp_json resp) in
         let* inner := lift (dict_get error_body "message" (PyStr (text resp))) in
         lift (dict_get error_body "error" inner))
        (ret (PyStr (text resp))) in
    lift (ChatResponse_new
            (PyStr ("[BLOCKED by EthicalZen] " +:+ py_str error_msg))
            MODE_A model_id true ETHICALZEN_GUARDRAIL
            trace_id acvps_status validation_ms elapsed_ms)
  else if status_code resp =? 400 then
    let* error_msg :=
      try_except
        (let* error_body := lift (resp_json resp) in
         lift (dict_get error_body "message" (PyStr (text resp))))
        (ret (PyStr (text resp))) in
    lift (ChatResponse_new
            (PyStr ("[BLOCKED by Bedrock Guardrail] " +:+ py_str error_msg))
            MODE_A model_id true BEDROCK_GUARDRAIL
            trace_id acvps_status validation_ms elapsed_ms)
  else if negb (status_code resp =? 200) then
    lift (ChatResponse_new
            (PyStr ("[ERROR] Proxy returned " +:+ pretty (status_code resp)
                    +:+ ": " +:+ text resp))
            MODE_A model_id false NONE
            trace_id acvps_status validation_ms elapsed_ms)
  else
    let* body := lift (resp_json resp) in
    let* generation := lift (dict_get body "generation" (PyStr "")) in
    let guardrail_action :=
      headers_get (headers resp) "x-amzn-bedrock-guardrail-action" in
    if bool_decide (guardrail_action = Some "INTERVENED") then
      lift (ChatResponse_new
              (PyStr ("[BLOCKED by Bedrock Guardrail] " +:+ py_str generation))
              MODE_A model_id true BEDROCK_GUARDRAIL
              trace_id acvps_status validation_ms elapsed_ms)
    else
      lift (ChatResponse_new generation
              MODE_A model_id false NONE
              trace_id acvps_status validation_ms elapsed_ms).

Definition invoke_via_proxy (message model_id : string)
    (guardrail_identifier guardrail_version : option string)
  : M ChatResponse :=
  let* region := environ_get_or "AWS_REGION" "us-east-1" in
  let* api_key := environ_item "ETHICALZEN_API_KEY" in
  let* dc_id := environ_item "ETHICALZEN_DC_ID" in
  let* dc_digest := environ_get_or "ETHICALZEN_DC_DIGEST" "" in
  let* dc_suite := environ_get_or "ETHICALZEN_DC_SUITE" "bedrock-guardrail-complement" in
  let* tenant_id := environ_get_or "ETHICALZEN_TENANT_ID" "default" in
  let body := build_invoke_body message in
  let target_url := get_bedrock_endpoint region model_id in
  let* bearer := uses_bearer_token in
  let* '(auth_headers, body_bytes) :=
    (if bearer then
       let* auth_headers := build_bearer_headers guardrail_identifier guardrail_version in
       ret (auth_headers, json_dumps_utf8 body)
     else
       let* '(_, auth_headers, body_bytes) :=
         sign_bedrock_request region model_id body
           guardrail_identifier guardrail_version in
       ret (auth_headers, body_bytes)) in
  let proxy_headers : gmap string string :=
    <["Content-Type" := "application/json"]>
      (<["X-Tenant-ID" := tenant_id]>
         (<["X-Target-Endpoint" := target_url]>
            (<["X-DC-Suite" := dc_suite]>
               (<["X-DC-Digest" := dc_digest]>
                  (<["X-DC-Id" := dc_id]>
                     (<["X-API-Key" := api_key]> ∅)))))) in
  let proxy_headers := forward_headers forward_keys auth_headers proxy_headers in
  let* proxy_url := _get_proxy_url in
  let* start := perf_counter in
  let* resp := client_post 30 proxy_url proxy_headers body_bytes in
  let* stop := perf_counter in
  let elapsed_ms := ((stop - start) * 1000)%float in
  classify_proxy model_id resp elapsed_ms.

(** *** [app/main.py] *)

(** The [detail] of the [HTTPException] the handler raises, with the
    exception whose text it carries. *)
Inductive Detail : Type :=
| MissingEnvironmentVariable (exc : PyExc)
| ExceptionText (exc : PyExc).

Inductive ChatResult : Type :=
| ChatOk (r : ChatResponse)
| HTTPException (status : Z) (detail : Detail).

(** [log_event(response, guardrail_identifier, guardrail_version)] *)
Definition log_event (r : ChatResponse)
    (guardrail_identifier guardrail_version : option string) (st : St) : St :=
  {| trace := trace st ++ [EvLog r guardrail_identifier guardrail_version];
     ticks := ticks st |}.

Definition chat (request : ChatRequest) (w : World) (st : St)
  : ChatResult * St :=
  let run :=
    match mode request with
    | DIRECT =>
        invoke_bedrock_direct (message request) (model_id request)
          (guardrail_identifier request) (guardrail_version request) w st
    | MODE_A =>
        invoke_via_proxy (message request) (model_id request)
          (guardrail_identifier request) (guardrail_version request) w st
    end in
  match run with
  | (Raised (KeyError k), st') =>
      (HTTPException 500 (MissingEnvironmentVariable (KeyError k)), st')
  | (Raised exc, st') => (HTTPException 500 (ExceptionText exc), st')
  | (Returned r, st') =>
      (ChatOk r,
       log_event r (guardrail_identifier request) (guardrail_version request) st')
  end.

End Accelerator.


(** ** Vocabulary of the statements *)

(** What the network did with the request a run posted last, if the run
    posted one. *)
Definition last_net_outcome (w : World) (st' : St) : option NetOutcome :=
  match list.last (trace st') with
  | Some (EvPost req) => Some (network w req)
  | _ => None
  end.

(** The run posted a request and the network answered it with [resp]. *)
Definition answered (w : World) (st' : St) (resp : Response) : Prop :=
  last_net_outcome w st' = Some (Responded resp).

(** The run posted a request and the call failed: the exception httpx
    raises when the connection could not be made or the client's timeout
    elapsed. *)
Definition transport_failure (w : World) (st' : St) : option PyExc :=
  match last_net_outcome w st' with
  | Some ConnectionFailed => Some ConnectError
  | Some TimedOut => Some TimeoutException
  | _ => None
  end.

(** The requests a run posted, in order. *)
Fixpoint posted (tr : list Event) : list HttpRequest :=
  match tr with
  | [] => []
  | EvPost r :: rest => r :: posted rest
  | _ :: rest => posted rest
  end.

(** The message of a first-layer block as the design document words it:
    the JSON body's [message] field, else the raw body text. *)
Definition spec_guardrail_message (resp : Response) : pyval :=
  match json resp with
  | Some (PyDict items) =>
      match items_get items "message" with
      | Some m => m
      | None => PyStr (text resp)
      end
  | _ => PyStr (text resp)
  end.

(** The message of a gateway block as the design document words it: the
    JSON body's [error] field, else its [message] field, else the raw body
    text. *)
Definition spec_gateway_message (resp : Response) : pyval :=
  match json resp with
  | Some (PyDict items) =>
      match items_get items "error" with
      | Some m => m
      | None =>
          match items_get items "message" with
          | Some m => m
          | None => PyStr (text resp)
          end
      end
  | _ => PyStr (text resp)
  end.

(** The gateway-status header names a block: it is there and not empty,
    and its value in upper case, as [str.upper()] gives it, is [BLOCKED],
    [REJECTED] or [DENIED]. *)
Definition gateway_block_header `{PyLibs} (resp : Response) : bool :=
  match headers_get (headers resp) "X-ACVPS-Status" with
  | Some value =>
      Text.truthy value
      && (String.eqb (str_upper value) "BLOCKED"
          || String.eqb (str_upper value) "REJECTED"
          || String.eqb (str_upper value) "DENIED")
  | None => false
  end.

(** The validation-duration header is absent, empty, or text [float()]
    accepts. *)
Definition validation_header_ok `{PyLibs} (resp : Response) : bool :=
  match headers_get (headers resp) "X-ACVPS-Validation-Ms" with
  | Some raw => negb (Text.truthy raw) || float_accepts raw
  | None => true
  end.

(** The guardrail-action header equals [INTERVENED]. *)
Definition intervened (resp : Response) : bool :=
  bool_decide
    (headers_get (headers resp) "x-amzn-bedrock-guardrail-action"
     = Some "INTERVENED").

(** The [generation] a 200 response carries, when its body is a JSON
    object: the field, else the empty string. *)
Definition generation_of (items : list (string * pyval)) : pyval :=
  default (PyStr "") (items_get items "generation").

(** What the signing branch leaves behind: one signature, over the bytes
    [body_bytes], with the credentials of the environment; [auth] is what
    the signer made of the request's headers. *)
Definition signed_with `{PyLibs} (w : World) (region body_bytes : string)
    (sig : list Event) (auth : gmap string string) : Prop :=
  ∃ creds r,
    sig = [EvSign creds "bedrock" region r]
    ∧ environ w !! "AWS_ACCESS_KEY_ID" = Some (cred_access_key creds)
    ∧ environ w !! "AWS_SECRET_ACCESS_KEY" = Some (cred_secret_key creds)
    ∧ aws_data r = body_bytes
    ∧ auth = sigv4_add_auth creds "bedrock" region (utcnow w) r.

(** The seven headers the gateway invoker sets before it forwards any. *)
Definition gateway_own_headers (api_key dc_id dc_digest dc_suite target_url
    tenant_id : string) : gmap string string :=
  <["Content-Type" := "application/json"]>
    (<["X-Tenant-ID" := tenant_id]>
       (<["X-Target-Endpoint" := target_url]>
          (<["X-DC-Suite" := dc_suite]>
             (<["X-DC-Digest" := dc_digest]>
                (<["X-DC-Id" := dc_id]>
                   (<["X-API-Key" := api_key]> ∅)))))).

(** The seven headers the gateway invoker sets itself. *)
Definition gateway_own_keys : list string :=
  [ "X-API-Key"; "X-DC-Id"; "X-DC-Digest"; "X-DC-Suite";
    "X-Target-Endpoint"; "X-Tenant-ID"; "Content-Type" ].


(** ** Vocabulary of the further properties *)

(** The validation duration a gateway response reports: [float()] of the
    [X-ACVPS-Validation-Ms] header, when there is one and it is not
    empty. *)
Definition reported_validation_ms (resp : Response) : option PyFloat :=
  match headers_get (headers resp) "X-ACVPS-Validation-Ms" with
  | Some raw => if Text.truthy raw then Some (FloatOf raw) else None
  | None => None
  end.

(** The event is an entry of the event log. *)
Definition is_log (e : Event) : bool :=
  match e with EvLog _ _ _ => true | _ => false end.

(** ** [app/models.py], [app/logging_utils.py]: the event log *)

(** [ChatMode.value] and [BlockedBy.value] *)
Definition ChatMode_value (m : ChatMode) : string :=
  match m with DIRECT => "direct" | MODE_A => "mode-a" end.

Definition BlockedBy_value (b : BlockedBy) : string :=
  match b with
  | NONE => "none"
  | BEDROCK_GUARDRAIL => "bedrock_guardrail"
  | ETHICALZEN_GUARDRAIL => "ethicalzen_guardrail"
  end.

Record EventLog : Type := {
  ev_trace_id : option string;
  ev_mode : string;
  ev_model : string;
  ev_guardrail_identifier : option string;
  ev_guardrail_version : option string;
  ev_ethicalzen_status : option string;
  ev_blocked : bool;
  ev_blocked_by : string;
  ev_validation_ms : option PyFloat;
  ev_total_latency_ms : float;
  ev_timestamp : string;
}.

(** The [EventLog] that [log_event(response, guardrail_identifier,
    guardrail_version)] builds and writes; [timestamp] is what the field's
    default factory gives at that moment. *)
Definition log_event_record (response : ChatResponse)
    (guardrail_identifier guardrail_version : option string)
    (timestamp : string) : EventLog :=
  {| ev_trace_id := trace_id response;
     ev_mode := ChatMode_value (resp_mode response);
     ev_model := model response;
     ev_guardrail_identifier := guardrail_identifier;
     ev_guardrail_version := guardrail_version;
     ev_ethicalzen_status := ethicalzen_status response;
     ev_blocked := blocked response;
     ev_blocked_by := BlockedBy_value (blocked_by response);
     ev_validation_ms := validation_ms response;
     ev_total_latency_ms := total_latency_ms response;
     ev_timestamp := timestamp |}.

(** The lines the two invokers share: the credentials are chosen and give
    the auth headers and the bytes of the body. *)
Definition auth_headers_and_body `{PyLibs} (region model_id : string)
    (body : pyval) (guardrail_identifier guardrail_version : option string)
  : M (gmap string string * string) :=
  let* bearer := uses_bearer_token in
  if bearer then
    let* auth_headers := build_bearer_headers guardrail_identifier guardrail_version in
    ret (auth_headers, json_dumps_utf8 body)
  else
    let* '(_, auth_headers, body_bytes) :=
      sign_bedrock_request region model_id body
        guardrail_identifier guardrail_version in
    ret (auth_headers, body_bytes).

(** The time between two successive readings of the clock, in
    milliseconds. *)
Definition elapsed_ms_at (w : World) (t : nat) : float :=
  ((clock w (S t) - clock w t) * 1000)%float.

(** The state after a request was posted between two readings of the
    clock. *)
Definition after_post (st : St) (req : HttpRequest) : St :=
  {| trace := trace st ++ [EvPost req]; ticks := S (S (ticks st)) |}.

(** The settings an invocation cannot do without, in the order it reads
    them: on the gateway path the API key and the contract id, then, unless
    a bearer token is set and not empty, the access key and the secret
    key. *)
Definition required_settings (gateway : bool) (w : World) : list string :=
  ((if gateway then ["ETHICALZEN_API_KEY"; "ETHICALZEN_DC_ID"] else [])
   ++ (if Text.opt_truthy (environ w !! "AWS_BEARER_TOKEN_BEDROCK") then []
       else ["AWS_ACCESS_KEY_ID"; "AWS_SECRET_ACCESS_KEY"]))%list.

(** The first of [keys] the environment does not define. *)
Definition first_missing (w : World) (keys : list string) : option string :=
  List.find (λ key, bool_decide (environ w !! key = None)) keys.

(** The mode goes through the gateway. *)
Definition uses_gateway (m : ChatMode) : bool :=
  match m with DIRECT => false | MODE_A => true end.

(** The URL a request of the mode is posted to: the model endpoint of the
    region, or the gateway's [/api/proxy]. *)
Definition posted_url (w : World) (m : ChatMode) (model_id : string) : string :=
  match m with
  | DIRECT =>
      get_bedrock_endpoint
        (default "us-east-1" (environ w !! "AWS_REGION")) model_id
  | MODE_A =>
      Text.rstrip_char "/"
        (default "https://gateway.ethicalzen.ai"
           (environ w !! "ETHICALZEN_PROXY_URL")) +:+ "/api/proxy"
  end.

(** The invoker the [/chat] handler calls for a mode. *)
Definition invoker `{PyLibs} (m : ChatMode)
  : string → string → option string → option string → M ChatResponse :=
  match m with
  | DIRECT => invoke_bedrock_direct
  | MODE_A => invoke_via_proxy
  end.


(** ** Sample surroundings

    Stand-ins for the library calls, and worlds for the scenarios of the
    design document.  The sample texts are ASCII: on them the two stand-ins
    below give what [str.upper()] and [float()] give. *)

(** Upper case for the letters [a] to [z]; every other byte stays. *)
Definition ascii_upper_char (c : ascii) : ascii :=
  let n := nat_of_ascii c in
  if Nat.leb 97 n && Nat.leb n 122 then ascii_of_nat (n - 32) else c.

Fixpoint ascii_upper (s : string) : string :=
  match s with
  | EmptyString => EmptyString
  | String c r => String (ascii_upper_char c) (ascii_upper r)
  end.

(** Plain decimal literals: ASCII digits, at least one, with at most one
    point among them.  [float()] accepts each of them, and more. *)
Fixpoint plain_decimal (digit_seen point_seen : bool) (s : string) : bool :=
  match s with
  | EmptyString => digit_seen
  | String c r =>
      let n := nat_of_ascii c in
      if Nat.leb 48 n && Nat.leb n 57 then plain_decimal true point_seen r
      else if Ascii.eqb c "." then negb point_seen && plain_decimal digit_seen true r
      else false
  end.

Definition sample_libs : PyLibs :=
  {| json_dumps_utf8 :=
       λ v, match v with
            | PyDict ((_, PyStr p) :: _) => "{prompt: " +:+ p +:+ "}"
            | _ => "{}"
            end;
     sigv4_add_auth :=
       λ creds service region now r,
         <["Authorization" :=
             "AWS4-HMAC-SHA256 Credential=" +:+ cred_access_key creds
             +:+ "/" +:+ region +:+ "/" +:+ service]>
           (<["X-Amz-Date" := now]> (aws_headers r));
     str_compound := λ _, "<value>";
     str_upper := ascii_upper;
     float_accepts := plain_decimal false false |}.

(** A world whose network always gives the same answer, and whose clock
    reads 0.1 and then 0.3 seconds. *)
Definition world_with (env : gmap string string) (answer : NetOutcome) : World :=
  {| environ := env;
     network := λ _, answer;
     clock := λ n, match n with O => 0.1%float | _ => 0.3%float end;
     utcnow := "20260101T000000Z" |}.

Definition bearer_env : gmap string string :=
  <["AWS_BEARER_TOKEN_BEDROCK" := "ABSK-token"]>
    (<["ETHICALZEN_DC_ID" := "dc-1"]>
       (<["ETHICALZEN_API_KEY" := "ez-key"]> ∅)).

Definition sigv4_env : gmap string string :=
  <["AWS_SECRET_ACCESS_KEY" := "secret"]>
    (<["AWS_ACCESS_KEY_ID" := "AKIA-1"]>
       (<["ETHICALZEN_DC_ID" := "dc-1"]>
          (<["ETHICALZEN_API_KEY" := "ez-key"]> ∅))).

Definition gateway_only_env : gmap string string :=
  <["ETHICALZEN_DC_ID" := "dc-1"]> (<["ETHICALZEN_API_KEY" := "ez-key"]> ∅).

Definition sample_message : string := "Explain how neural networks work".

Definition sample_model : string := "meta.llama3-8b-instruct-v1:0".

(** The model endpoint answers the prompt. *)
Definition resp_pass : Response :=
  {| status_code := 200;
     headers := [("Content-Type", "application/json")];
     text := "{generation: Neural networks...}";
     json := Some (PyDict [("generation", PyStr "Neural networks...")]) |}.

(** The model endpoint's guardrail refuses the prompt. *)
Definition resp_refused : Response :=
  {| status_code := 400;
     headers := [];
     text := "{message: violates usage policy}";
     json := Some (PyDict [("message", PyStr "violates usage policy")]) |}.

(** The gateway blocks, and the status is 400 as well. *)
Definition resp_gateway_block : Response :=
  {| status_code := 400;
     headers := [("X-ACVPS-Status", "Blocked");
                 ("X-ACVPS-Trace-ID", "trace-1");
                 ("X-ACVPS-Validation-Ms", "12.5")];
     text := "{error: prompt injection detected}";
     json := Some (PyDict [("error", PyStr "prompt injection detected")]) |}.

(** The gateway blocks, and reports no usable validation duration. *)
Definition resp_gateway_block_no_duration : Response :=
  {| status_code := 200;
     headers := [("X-ACVPS-Status", "BLOCKED");
                 ("X-ACVPS-Validation-Ms", "n/a")];
     text := "{error: prompt injection detected}";
     json := Some (PyDict [("error", PyStr "prompt injection detected")]) |}.

(** The service is unavailable. *)
Definition resp_unavailable : Response :=
  {| status_code := 503;
     headers := [("X-ACVPS-Validation-Ms", "3")];
     text := "Service Unavailable";
     json := None |}.

(** The service is unavailable, and the gateway reports no usable
    validation duration. *)
Definition resp_unavailable_no_duration : Response :=
  {| status_code := 503;
     headers := [("X-ACVPS-Validation-Ms", "n/a")];
     text := "Service Unavailable";
     json := None |}.

(** Status 200 with a body that is not JSON. *)
Definition resp_unparsable : Response :=
  {| status_code := 200;
     headers := [];
     text := "<html>ok</html>";
     json := None |}.


(** A [/chat] request for the sample message. *)
Definition sample_chat (m : ChatMode) : ChatRequest :=
  {| message := sample_message; mode := m; model_id := sample_model;
     guardrail_identifier := None; guardrail_version := None |}.


(** * Properties *)

Local Open Scope list_scope.

(** ** The gateway-status header *)

(** The program's test on the gateway-status header. *)
Lemma acvps_blocks_spec `{PyLibs} (resp : Response) :
  acvps_blocks (headers_get (headers resp) "X-ACVPS-Status")
  = gateway_block_header resp.
Proof.
  unfold acvps_blocks, gateway_block_header.
  destruct (headers_get _ _) as [v|]; [|done]. cbn [existsb].
  by rewrite orb_false_r, !orb_assoc.
Qed.

Section Properties.
Context `{PyLibs}.

Ltac run_step :=
  unfold bind, ret, raise, lift, try_except, environ_get, environ_get_or,
    environ_item, perf_counter, client_post, add_auth, uses_bearer_token,
    _get_proxy_url in *;
  simpl in *.

(** ** The classifiers *)

(** Classifying reads the response only: the state is left as it was. *)
Lemma classify_direct_state mid resp e w st :
  snd (classify_direct mid resp e w st) = st.
Proof.
  unfold classify_direct. run_step.
  unfold resp_json, dict_get, ChatResponse_new.
  repeat case_match; simplify_eq; simpl; reflexivity.
Qed.

Lemma classify_proxy_state mid resp e w st :
  snd (classify_proxy mid resp e w st) = st.
Proof.
  unfold classify_proxy. run_step.
  unfold resp_json, dict_get, ChatResponse_new, py_float.
  repeat case_match; simplify_eq; simpl; reflexivity.
Qed.

Lemma classify_direct_run mid resp e w st out st' :
  classify_direct mid resp e w st = (out, st') →
  st' = st ∧ out = fst (classify_direct mid resp e w st).
Proof.
  intros Hrun. pose proof (classify_direct_state mid resp e w st) as Hst.
  rewrite Hrun in *. simpl in Hst. auto.
Qed.

Lemma classify_proxy_run mid resp e w st out st' :
  classify_proxy mid resp e w st = (out, st') →
  st' = st ∧ out = fst (classify_proxy mid resp e w st).
Proof.
  intros Hrun. pose proof (classify_proxy_state mid resp e w st) as Hst.
  rewrite Hrun in *. simpl in Hst. auto.
Qed.

(** Status 400 on the direct path. *)
Lemma classify_direct_400 mid resp e w st :
  status_code resp = 400 →
  fst (classify_direct mid resp e w st)
  = Returned
      {| response := "[BLOCKED by Bedrock Guardrail] "
                     +:+ py_str (spec_guardrail_message resp);
         resp_mode := DIRECT; model := mid;
         blocked := true; blocked_by := BEDROCK_GUARDRAIL;
         trace_id := None; ethicalzen_status := None; validation_ms := None;
         total_latency_ms := e |}.
Proof.
  intros Hs. unfold classify_direct, spec_guardrail_message. rewrite Hs.
  run_step. unfold resp_json, dict_get.
  destruct (json resp) as [[| | | | |items]|]; simpl; reflexivity.
Qed.

(** A status other than 200 and 400 on the direct path. *)
Lemma classify_direct_error mid resp e w st :
  status_code resp ≠ 400 → status_code resp ≠ 200 →
  fst (classify_direct mid resp e w st)
  = Returned
      {| response := "[ERROR] Bedrock returned " +:+ pretty (status_code resp)
                     +:+ ": " +:+ text resp;
         resp_mode := DIRECT; model := mid;
         blocked := false; blocked_by := NONE;
         trace_id := None; ethicalzen_status := None; validation_ms := None;
         total_latency_ms := e |}.
Proof.
  intros H4 H2. unfold classify_direct.
  apply Z.eqb_neq in H4, H2. rewrite H4, H2. reflexivity.
Qed.

(** Status 200 on the direct path, the body a JSON object. *)
Lemma classify_direct_200 mid resp e w st items :
  status_code resp = 200 → json resp = Some (PyDict items) →
  fst (classify_direct mid resp e w st)
  = if intervened resp
    then Returned
           {| response := "[BLOCKED by Bedrock Guardrail] "
                          +:+ py_str (generation_of items);
              resp_mode := DIRECT; model := mid;
              blocked := true; blocked_by := BEDROCK_GUARDRAIL;
              trace_id := None; ethicalzen_status := None;
              validation_ms := None; total_latency_ms := e |}
    else ChatResponse_new (generation_of items) DIRECT mid false NONE
           None None None e.
Proof.
  intros Hs Hj. unfold classify_direct, intervened, generation_of. rewrite Hs.
  run_step. unfold resp_json, dict_get. rewrite Hj. simpl.
  destruct (bool_decide _); reflexivity.
Qed.

(** Every verdict of the direct classifier is one of three shapes. *)
Lemma classify_direct_verdict mid resp e w st v :
  fst (classify_direct mid resp e w st) = Returned v →
  trace_id v = None ∧ ethicalzen_status v = None ∧ validation_ms v = None
  ∧ ((blocked v = true ∧ blocked_by v = BEDROCK_GUARDRAIL)
     ∨ (blocked v = false ∧ blocked_by v = NONE)).
Proof.
  unfold classify_direct. run_step.
  unfold resp_json, dict_get, ChatResponse_new.
  repeat case_match; simplify_eq; simpl; intros; simplify_eq; simpl;
    repeat split; auto.
Qed.

(** Splits on the validation-duration header the way [classify_proxy]
    reads it, under [validation_header_ok]. *)
Ltac validation_cases Hok :=
  unfold validation_header_ok in Hok;
  destruct (headers_get _ "X-ACVPS-Validation-Ms") as [raw|];
  [ destruct (Text.truthy raw); simpl in Hok;
    [ unfold py_float; rewrite Hok | ]
  | ];
  run_step.

(** A gateway block, whatever the status. *)
Lemma classify_proxy_blocked mid resp e w st :
  gateway_block_header resp = true → validation_header_ok resp = true →
  ∃ vms,
    fst (classify_proxy mid resp e w st)
    = Returned
        {| response := "[BLOCKED by EthicalZen] "
                       +:+ py_str (spec_gateway_message resp);
           resp_mode := MODE_A; model := mid;
           blocked := true; blocked_by := ETHICALZEN_GUARDRAIL;
           trace_id := headers_get (headers resp) "X-ACVPS-Trace-ID";
           ethicalzen_status := headers_get (headers resp) "X-ACVPS-Status";
           validation_ms := vms; total_latency_ms := e |}.
Proof.
  intros Hb Hok. rewrite <- acvps_blocks_spec in Hb.
  unfold classify_proxy, spec_gateway_message. run_step.
  validation_cases Hok; rewrite Hb; unfold resp_json, dict_get;
    eexists; (destruct (json resp) as [[| | | | |items]|]; simpl;
      [..|destruct (items_get items "error"); simpl|]; reflexivity).
Qed.

(** Status 400 on the gateway path, the gateway not blocking. *)
Lemma classify_proxy_400 mid resp e w st :
  gateway_block_header resp = false → validation_header_ok resp = true →
  status_code resp = 400 →
  ∃ vms,
    fst (classify_proxy mid resp e w st)
    = Returned
        {| response := "[BLOCKED by Bedrock Guardrail] "
                       +:+ py_str (spec_guardrail_message resp);
           resp_mode := MODE_A; model := mid;
           blocked := true; blocked_by := BEDROCK_GUARDRAIL;
           trace_id := headers_get (headers resp) "X-ACVPS-Trace-ID";
           ethicalzen_status := headers_get (headers resp) "X-ACVPS-Status";
           validation_ms := vms; total_latency_ms := e |}.
Proof.
  intros Hb Hok Hs. rewrite <- acvps_blocks_spec in Hb.
  unfold classify_proxy, spec_guardrail_message. run_step.
  validation_cases Hok; rewrite Hb, Hs; simpl; unfold resp_json, dict_get;
    eexists; (destruct (json resp) as [[| | | | |items]|]; simpl; reflexivity).
Qed.

(** A status other than 200 and 400 on the gateway path, the gateway not
    blocking. *)
Lemma classify_proxy_error mid resp e w st :
  gateway_block_header resp = false → validation_header_ok resp = true →
  status_code resp ≠ 400 → status_code resp ≠ 200 →
  ∃ vms,
    fst (classify_proxy mid resp e w st)
    = Returned
        {| response := "[ERROR] Proxy returned " +:+ pretty (status_code resp)
                       +:+ ": " +:+ text resp;
           resp_mode := MODE_A; model := mid;
           blocked := false; blocked_by := NONE;
           trace_id := headers_get (headers resp) "X-ACVPS-Trace-ID";
           ethicalzen_status := headers_get (headers resp) "X-ACVPS-Status";
           validation_ms := vms; total_latency_ms := e |}.
Proof.
  intros Hb Hok H4 H2. rewrite <- acvps_blocks_spec in Hb.
  apply Z.eqb_neq in H4, H2.
  unfold classify_proxy. run_step.
  validation_cases Hok; rewrite Hb, H4, H2; simpl; eexists; reflexivity.
Qed.

(** Status 200 on the gateway path, the gateway not blocking, the body a
    JSON object. *)
Lemma classify_proxy_200 mid resp e w st items :
  gateway_block_header resp = false → validation_header_ok resp = true →
  status_code resp = 200 → json resp = Some (PyDict items) →
  ∃ vms,
    fst (classify_proxy mid resp e w st)
    = if intervened resp
      then Returned
             {| response := "[BLOCKED by Bedrock Guardrail] "
                            +:+ py_str (generation_of items);
                resp_mode := MODE_A; model := mid;
                blocked := true; blocked_by := BEDROCK_GUARDRAIL;
                trace_id := headers_get (headers resp) "X-ACVPS-Trace-ID";
                ethicalzen_status := headers_get (headers resp) "X-ACVPS-Status";
                validation_ms := vms; total_latency_ms := e |}
      else ChatResponse_new (generation_of items) MODE_A mid false NONE
             (headers_get (headers resp) "X-ACVPS-Trace-ID")
             (headers_get (headers resp) "X-ACVPS-Status") vms e.
Proof.
  intros Hb Hok Hs Hj. rewrite <- acvps_blocks_spec in Hb.
  unfold classify_proxy, intervened, generation_of. run_step.
  validation_cases Hok; rewrite Hb, Hs; simpl; unfold resp_json, dict_get;
    rewrite Hj; simpl; eexists; (destruct (bool_decide _); reflexivity).
Qed.

(** Every verdict of the gateway classifier is one of three shapes. *)
Lemma classify_proxy_verdict mid resp e w st v :
  fst (classify_proxy mid resp e w st) = Returned v →
  (blocked v = true ∧ blocked_by v = ETHICALZEN_GUARDRAIL)
  ∨ (blocked v = true ∧ blocked_by v = BEDROCK_GUARDRAIL)
  ∨ (blocked v = false ∧ blocked_by v = NONE).
Proof.
  unfold classify_proxy. run_step.
  unfold resp_json, dict_get, ChatResponse_new, py_float.
  repeat case_match; simplify_eq; simpl; intros; simplify_eq; simpl; auto.
Qed.

(** ** The runs of the two invokers *)

(** Runs the monad's own operations and nothing else: maps, strings and
    the classifiers stay folded. *)
Ltac run_cbn :=
  unfold bind, ret, raise, lift, try_except, environ_get, environ_get_or,
    environ_item, perf_counter, client_post, add_auth, uses_bearer_token,
    _get_proxy_url;
  cbv beta iota zeta;
  cbn [trace ticks fst snd].

(** The run ended in the classifier or in an exception of the call. *)
Ltac close_run :=
  first [ intros Hrun; apply classify_direct_run in Hrun as [-> ->]
        | intros Hrun; apply classify_proxy_run in Hrun as [-> ->]
        | intros [= <- <-] ];
  right.

(** A variable of the environment is missing: [KeyError], nothing done. *)
Ltac key_error := intros [= <- <-]; left; eexists; repeat split; eauto.

(** Runs on with what the case analysis so far has established. *)
Ltac run_on :=
  repeat (run_cbn; unfold Text.opt_truthy;
          repeat match goal with
                 | H : ?x = _ |- context [?x] => rewrite H
                 end).

(** Reads [os.environ[key]]: the run goes on with the value, or stops. *)
Ltac read_item key :=
  let v := fresh "v" in
  let Hv := fresh "Hv" in
  destruct (environ _ !! key) as [v|] eqn:Hv; run_on; [|key_error].

(** The call itself: the three things the network can do. *)
Ltac call_network Hn :=
  match goal with
  | |- context [network ?w ?r] => destruct (network w r) eqn:Hn
  end;
  run_on.

Lemma direct_run msg mid gid gver w st out st' :
  invoke_bedrock_direct msg mid gid gver w st = (out, st') →
  (∃ k, out = Raised (KeyError k) ∧ st' = st
        ∧ Text.opt_truthy (environ w !! "AWS_BEARER_TOKEN_BEDROCK") = false
        ∧ (k = "AWS_ACCESS_KEY_ID" ∨ k = "AWS_SECRET_ACCESS_KEY")
        ∧ environ w !! k = None)
  ∨ (∃ sig hdrs,
       let region := default "us-east-1" (environ w !! "AWS_REGION") in
       let body_bytes := json_dumps_utf8 (build_invoke_body msg) in
       let req := {| req_url := get_bedrock_endpoint region mid;
                     req_headers := hdrs;
                     req_content := body_bytes; req_timeout := 30 |} in
       trace st' = trace st ++ sig ++ [EvPost req]
       ∧ (if Text.opt_truthy (environ w !! "AWS_BEARER_TOKEN_BEDROCK")
          then sig = []
               ∧ fst (build_bearer_headers gid gver w st) = Returned hdrs
          else signed_with w region body_bytes sig hdrs)
       ∧ match network w req with
         | Responded resp =>
             ∃ e, out = fst (classify_direct mid resp e w st')
         | ConnectionFailed => out = Raised ConnectError
         | TimedOut => out = Raised TimeoutException
         end).
Proof.
  unfold invoke_bedrock_direct, sign_bedrock_request, build_bearer_headers,
    signed_with.
  run_on.
  destruct (environ w !! "AWS_BEARER_TOKEN_BEDROCK") as [tok|] eqn:Htok;
    run_on; [destruct (Text.truthy tok) eqn:Ht|]; run_on.
  - call_network Hn.
    all: close_run; eexists [], _; cbn [app]; (split; [reflexivity|]);
      (split; [split; reflexivity|]); rewrite Hn; eauto.
  - read_item "AWS_ACCESS_KEY_ID". read_item "AWS_SECRET_ACCESS_KEY".
    call_network Hn.
    all: close_run; eexists [_], _; rewrite <- app_assoc;
      (split; [reflexivity|]);
      (split; [eexists (Build_Credentials _ _ _), _; repeat split; reflexivity|]);
      rewrite Hn; eauto.
  - read_item "AWS_ACCESS_KEY_ID". read_item "AWS_SECRET_ACCESS_KEY".
    call_network Hn.
    all: close_run; eexists [_], _; rewrite <- app_assoc;
      (split; [reflexivity|]);
      (split; [eexists (Build_Credentials _ _ _), _; repeat split; reflexivity|]);
      rewrite Hn; eauto.
Qed.

Lemma proxy_run msg mid gid gver w st out st' :
  invoke_via_proxy msg mid gid gver w st = (out, st') →
  (∃ k, out = Raised (KeyError k) ∧ st' = st ∧ environ w !! k = None)
  ∨ (∃ sig auth api_key dc_id,
       let region := default "us-east-1" (environ w !! "AWS_REGION") in
       let body_bytes := json_dumps_utf8 (build_invoke_body msg) in
       let req :=
         {| req_url :=
              Text.rstrip_char "/"
                (default "https://gateway.ethicalzen.ai"
                   (environ w !! "ETHICALZEN_PROXY_URL"))
              +:+ "/api/proxy";
            req_headers :=
              forward_headers forward_keys auth
                (gateway_own_headers api_key dc_id
                   (default "" (environ w !! "ETHICALZEN_DC_DIGEST"))
                   (default "bedrock-guardrail-complement"
                      (environ w !! "ETHICALZEN_DC_SUITE"))
                   (get_bedrock_endpoint region mid)
                   (default "default" (environ w !! "ETHICALZEN_TENANT_ID")));
            req_content := body_bytes; req_timeout := 30 |} in
       environ w !! "ETHICALZEN_API_KEY" = Some api_key
       ∧ environ w !! "ETHICALZEN_DC_ID" = Some dc_id
       ∧ trace st' = trace st ++ sig ++ [EvPost req]
       ∧ (if Text.opt_truthy (environ w !! "AWS_BEARER_TOKEN_BEDROCK")
          then sig = []
               ∧ fst (build_bearer_headers gid gver w st) = Returned auth
          else signed_with w region body_bytes sig auth)
       ∧ match network w req with
         | Responded resp =>
             ∃ e, out = fst (classify_proxy mid resp e w st')
         | ConnectionFailed => out = Raised ConnectError
         | TimedOut => out = Raised TimeoutException
         end).
Proof.
  unfold invoke_via_proxy, sign_bedrock_request, build_bearer_headers,
    signed_with, gateway_own_headers.
  run_on.
  read_item "ETHICALZEN_API_KEY". read_item "ETHICALZEN_DC_ID".
  destruct (environ w !! "AWS_BEARER_TOKEN_BEDROCK") as [tok|] eqn:Htok;
    run_on; [destruct (Text.truthy tok) eqn:Ht|]; run_on.
  - call_network Hn.
    all: close_run; eexists [], _, _, _; cbn [app];
      (split; [reflexivity|]); (split; [reflexivity|]);
      (split; [reflexivity|]);
      (split; [split; reflexivity|]); rewrite Hn; eauto.
  - read_item "AWS_ACCESS_KEY_ID". read_item "AWS_SECRET_ACCESS_KEY".
    call_network Hn.
    all: close_run; eexists [_], _, _, _; rewrite <- app_assoc;
      (split; [reflexivity|]); (split; [reflexivity|]);
      (split; [reflexivity|]);
      (split; [eexists (Build_Credentials _ _ _), _; repeat split; reflexivity|]);
      rewrite Hn; eauto.
  - read_item "AWS_ACCESS_KEY_ID". read_item "AWS_SECRET_ACCESS_KEY".
    call_network Hn.
    all: close_run; eexists [_], _, _, _; rewrite <- app_assoc;
      (split; [reflexivity|]); (split; [reflexivity|]);
      (split; [reflexivity|]);
      (split; [eexists (Build_Credentials _ _ _), _; repeat split; reflexivity|]);
      rewrite Hn; eauto.
Qed.

(** ** What a run comes to *)

Lemma last_net_outcome_posted w st' pre req :
  trace st' = pre ++ [EvPost req] →
  last_net_outcome w st' = Some (network w req).
Proof.
  intros Htr. unfold last_net_outcome. by rewrite Htr, last_snoc.
Qed.

(** A direct run, read off what the network did with its request. *)
Lemma direct_outcome msg mid gid gver w :
  let run := invoke_bedrock_direct msg mid gid gver w st0 in
  match last_net_outcome w (snd run) with
  | Some (Responded resp) =>
      ∃ e, fst run = fst (classify_direct mid resp e w (snd run))
  | Some ConnectionFailed => fst run = Raised ConnectError
  | Some TimedOut => fst run = Raised TimeoutException
  | None =>
      ∃ k, fst run = Raised (KeyError k) ∧ snd run = st0
           ∧ environ w !! k = None
           ∧ Text.opt_truthy (environ w !! "AWS_BEARER_TOKEN_BEDROCK") = false
           ∧ (k = "AWS_ACCESS_KEY_ID" ∨ k = "AWS_SECRET_ACCESS_KEY")
  end.
Proof.
  intros run. subst run.
  destruct (invoke_bedrock_direct msg mid gid gver w st0) as [out st'] eqn:Hrun.
  apply direct_run in Hrun as [(k & -> & -> & Hb & Hk & Hnone)|(sig & hdrs & Hrun)].
  - cbn. eauto 10.
  - cbv zeta in Hrun. destruct Hrun as (Htr & _ & Hnet).
    cbn [trace st0 app] in Htr.
    cbn [fst snd].
    rewrite (last_net_outcome_posted _ _ _ _ Htr). exact Hnet.
Qed.

(** A gateway run, read off what the network did with its request. *)
Lemma proxy_outcome msg mid gid gver w :
  let run := invoke_via_proxy msg mid gid gver w st0 in
  match last_net_outcome w (snd run) with
  | Some (Responded resp) =>
      ∃ e, fst run = fst (classify_proxy mid resp e w (snd run))
  | Some ConnectionFailed => fst run = Raised ConnectError
  | Some TimedOut => fst run = Raised TimeoutException
  | None =>
      ∃ k, fst run = Raised (KeyError k) ∧ snd run = st0
           ∧ environ w !! k = None
  end.
Proof.
  intros run. subst run.
  destruct (invoke_via_proxy msg mid gid gver w st0) as [out st'] eqn:Hrun.
  apply proxy_run in Hrun
    as [(k & -> & -> & Hnone)|(sig & auth & api & dc & Hrun)].
  - cbn. eauto.
  - cbv zeta in Hrun. destruct Hrun as (_ & _ & Htr & _ & Hnet).
    cbn [trace st0 app] in Htr.
    cbn [fst snd].
    rewrite (last_net_outcome_posted _ _ _ _ Htr). exact Hnet.
Qed.

(** An answered run ends in the classifier. *)
Lemma direct_answered msg mid gid gver w resp :
  let run := invoke_bedrock_direct msg mid gid gver w st0 in
  answered w (snd run) resp →
  ∃ e, fst run = fst (classify_direct mid resp e w (snd run)).
Proof.
  intros run Hans. pose proof (direct_outcome msg mid gid gver w) as Ho.
  cbv zeta in Ho. fold run in Ho. unfold answered in Hans.
  rewrite Hans in Ho. exact Ho.
Qed.

Lemma proxy_answered msg mid gid gver w resp :
  let run := invoke_via_proxy msg mid gid gver w st0 in
  answered w (snd run) resp →
  ∃ e, fst run = fst (classify_proxy mid resp e w (snd run)).
Proof.
  intros run Hans. pose proof (proxy_outcome msg mid gid gver w) as Ho.
  cbv zeta in Ho. fold run in Ho. unfold answered in Hans.
  rewrite Hans in Ho. exact Ho.
Qed.

(** A verdict of either invoker, from any state, is a verdict of its
    classifier. *)
Lemma direct_verdict_classified msg mid gid gver w st v :
  fst (invoke_bedrock_direct msg mid gid gver w st) = Returned v →
  ∃ resp e st', fst (classify_direct mid resp e w st') = Returned v.
Proof.
  destruct (invoke_bedrock_direct msg mid gid gver w st) as [out st'] eqn:Hrun.
  cbn [fst]. intros ->.
  apply direct_run in Hrun as [(k & Hk & _)|(sig & hdrs & Hrun)]; [done|].
  cbv zeta in Hrun. destruct Hrun as (_ & _ & Hnet).
  destruct (network w _) as [resp| |]; [|done..].
  destruct Hnet as [e He]. by exists resp, e, st'.
Qed.

Lemma proxy_verdict_classified msg mid gid gver w st v :
  fst (invoke_via_proxy msg mid gid gver w st) = Returned v →
  ∃ resp e st', fst (classify_proxy mid resp e w st') = Returned v.
Proof.
  destruct (invoke_via_proxy msg mid gid gver w st) as [out st'] eqn:Hrun.
  cbn [fst]. intros ->.
  apply proxy_run in Hrun as [(k & Hk & _)|(sig & auth & api & dc & Hrun)];
    [done|].
  cbv zeta in Hrun. destruct Hrun as (_ & _ & _ & _ & Hnet).
  destruct (network w _) as [resp| |]; [|done..].
  destruct Hnet as [e He]. by exists resp, e, st'.
Qed.

(** On the gateway path a verdict for a status other than 200 and 400,
    the gateway not blocking, is not blocked. *)
Lemma classify_proxy_error_verdict mid resp e w st v :
  gateway_block_header resp = false →
  status_code resp ≠ 400 → status_code resp ≠ 200 →
  fst (classify_proxy mid resp e w st) = Returned v →
  blocked v = false ∧ blocked_by v = NONE.
Proof.
  intros Hb H4 H2. rewrite <- acvps_blocks_spec in Hb.
  apply Z.eqb_neq in H4, H2.
  unfold classify_proxy, bind, ret, lift. rewrite Hb, H4, H2.
  unfold py_float.
  destruct (headers_get _ "X-ACVPS-Validation-Ms") as [raw|];
    [destruct (Text.truthy raw); [destruct (float_accepts raw)|]|];
    cbn; intros [= <-]; done.
Qed.

(** ** The claims *)

(** C1. Every verdict either invoker returns has [blocked] true exactly
    when [blocked_by] is not [NONE]; in particular the verdict for a
    response whose status is neither 200 nor 400 (and, on the gateway path,
    without a gateway block) has [blocked] false and [blocked_by] [NONE]. *)
Theorem C1_blocked_iff_attributed msg mid gid gver w st v :
  (fst (invoke_bedrock_direct msg mid gid gver w st) = Returned v
   ∨ fst (invoke_via_proxy msg mid gid gver w st) = Returned v →
   (blocked v = true ↔ blocked_by v ≠ NONE))
  ∧ (∀ resp,
       status_code resp ≠ 400 → status_code resp ≠ 200 →
       (let run := invoke_bedrock_direct msg mid gid gver w st0 in
        answered w (snd run) resp ∧ fst run = Returned v)
       ∨ (let run := invoke_via_proxy msg mid gid gver w st0 in
          answered w (snd run) resp ∧ gateway_block_header resp = false
          ∧ fst run = Returned v) →
       blocked v = false ∧ blocked_by v = NONE).
Proof.
  split.
  - intros [Hd|Hp].
    + apply direct_verdict_classified in Hd as (resp & e & st' & Hv).
      apply classify_direct_verdict in Hv as (_ & _ & _ & [[-> ->]|[-> ->]]);
        split; congruence.
    + apply proxy_verdict_classified in Hp as (resp & e & st' & Hv).
      apply classify_proxy_verdict in Hv as [[-> ->]|[[-> ->]|[-> ->]]];
        split; congruence.
  - intros resp H4 H2 [[Hans Hv]|(Hans & Hb & Hv)].
    + apply direct_answered in Hans as [e He]. rewrite Hv in He.
      rewrite (classify_direct_error _ _ _ _ _ H4 H2) in He.
      by injection He as ->.
    + apply proxy_answered in Hans as [e He]. rewrite Hv in He.
      symmetry in He.
      by apply (classify_proxy_error_verdict _ _ _ _ _ _ Hb H4 H2) in He.
Qed.

(** C10. A verdict of the direct invoker never carries a trace id, a
    gateway status or a validation duration. *)
Theorem C10_direct_no_gateway_fields msg mid gid gver w st v :
  fst (invoke_bedrock_direct msg mid gid gver w st) = Returned v →
  trace_id v = None ∧ ethicalzen_status v = None ∧ validation_ms v = None.
Proof.
  intros Hd. apply direct_verdict_classified in Hd as (resp & e & st' & Hv).
  apply classify_direct_verdict in Hv. tauto.
Qed.

(** C5. A direct invocation answered with status 400 returns a verdict
    blocked by the first-layer guardrail; its text carries the [message]
    field of the JSON body, or the raw body text when there is no such
    field or the body is not JSON; no exception comes out. *)
Theorem C5_direct_400_blocked msg mid gid gver w resp :
  let run := invoke_bedrock_direct msg mid gid gver w st0 in
  answered w (snd run) resp → status_code resp = 400 →
  ∃ v, fst run = Returned v
       ∧ blocked v = true ∧ blocked_by v = BEDROCK_GUARDRAIL
       ∧ response v = "[BLOCKED by Bedrock Guardrail] "
                      +:+ py_str (spec_guardrail_message resp)
       ∧ (json resp = None →
          response v = "[BLOCKED by Bedrock Guardrail] " +:+ text resp).
Proof.
  intros run Hans Hs. apply direct_answered in Hans as [e He]. fold run in He.
  rewrite (classify_direct_400 _ _ _ _ _ Hs) in He.
  eexists. split; [exact He|]. cbn. repeat split.
  intros Hj. unfold spec_guardrail_message. by rewrite Hj.
Qed.

(** X20. A gateway invocation answered with a gateway-status header
    naming a block, whose validation-duration header is absent, empty or
    text [float()] accepts, returns a verdict blocked by the second-layer
    gateway, whatever the HTTP status (400 included, so never by the
    first-layer guardrail); its text carries the [error] field of the JSON
    body, else the [message] field, else the raw body text. *)
Theorem X20_gateway_block_first msg mid gid gver w resp :
  let run := invoke_via_proxy msg mid gid gver w st0 in
  answered w (snd run) resp →
  gateway_block_header resp = true → validation_header_ok resp = true →
  ∃ v, fst run = Returned v
       ∧ blocked v = true ∧ blocked_by v = ETHICALZEN_GUARDRAIL
       ∧ blocked_by v ≠ BEDROCK_GUARDRAIL
       ∧ response v = "[BLOCKED by EthicalZen] "
                      +:+ py_str (spec_gateway_message resp).
Proof.
  intros run Hans Hb Hok. apply proxy_answered in Hans as [e He]. fold run in He.
  destruct (classify_proxy_blocked mid resp e w (snd run) Hb Hok) as [vms Hv].
  rewrite Hv in He. eexists. split; [exact He|]. cbn. by repeat split.
Qed.

(** C3, as the code has it. When the call fails, by a connection error or
    by the 30-second timeout, the invoker returns no verdict: it raises the
    transport exception, which the [/chat] handler turns into an HTTP 500
    error carrying the exception's text. *)
Theorem C3_transport_failure_raises msg mid gid gver w exc :
  (let run := invoke_bedrock_direct msg mid gid gver w st0 in
   transport_failure w (snd run) = Some exc → fst run = Raised exc)
  ∧ (let run := invoke_via_proxy msg mid gid gver w st0 in
     transport_failure w (snd run) = Some exc → fst run = Raised exc)
  ∧ (∀ m,
       let request := {| message := msg; mode := m; model_id := mid;
                         guardrail_identifier := gid;
                         guardrail_version := gver |} in
       let res := chat request w st0 in
       transport_failure w (snd res) = Some exc →
       fst res = HTTPException 500 (ExceptionText exc)).
Proof.
  assert (Hd : let run := invoke_bedrock_direct msg mid gid gver w st0 in
               transport_failure w (snd run) = Some exc → fst run = Raised exc).
  { intros run. pose proof (direct_outcome msg mid gid gver w) as Ho.
    cbv zeta in Ho. fold run in Ho. unfold transport_failure.
    destruct (last_net_outcome w (snd run)) as [[resp| |]|];
      intros [= <-]; done. }
  assert (Hp : let run := invoke_via_proxy msg mid gid gver w st0 in
               transport_failure w (snd run) = Some exc → fst run = Raised exc).
  { intros run. pose proof (proxy_outcome msg mid gid gver w) as Ho.
    cbv zeta in Ho. fold run in Ho. unfold transport_failure.
    destruct (last_net_outcome w (snd run)) as [[resp| |]|];
      intros [= <-]; done. }
  split; [exact Hd|]. split; [exact Hp|].
  intros m request res. subst res request. unfold chat. cbn [mode message
    model_id guardrail_identifier guardrail_version].
  cbv zeta in Hd, Hp.
  assert (Hlog : ∀ r a b st', transport_failure w (log_event r a b st') = None).
  { intros. unfold transport_failure, last_net_outcome, log_event. cbn [trace].
    by rewrite last_snoc. }
  destruct m.
  - destruct (invoke_bedrock_direct msg mid gid gver w st0) as [[v|e] st'];
      cbn [fst snd] in *.
    + by rewrite Hlog.
    + intros Hf.
      assert (Hf' : transport_failure w st' = Some exc)
        by (destruct e; exact Hf).
      specialize (Hd Hf'). injection Hd as ->.
      unfold transport_failure in Hf'.
      destruct (last_net_outcome w st') as [[| |]|]; by simplify_eq.
  - destruct (invoke_via_proxy msg mid gid gver w st0) as [[v|e] st'];
      cbn [fst snd] in *.
    + by rewrite Hlog.
    + intros Hf.
      assert (Hf' : transport_failure w st' = Some exc)
        by (destruct e; exact Hf).
      specialize (Hp Hf'). injection Hp as ->.
      unfold transport_failure in Hf'.
      destruct (last_net_outcome w st') as [[| |]|]; by simplify_eq.
Qed.

(** X21. An invocation answered with status 200 (on the gateway path:
    without a gateway block, the validation-duration header absent, empty
    or text [float()] accepts) and a body that is a JSON object takes the
    [generation] field of the body, the empty string when there is none. If
    the guardrail-action header is [INTERVENED] the verdict is blocked by
    the first-layer guardrail and its text wraps the generation; otherwise,
    the generation being a string, the verdict is passed, not attributed,
    and its text is the generation. *)
Theorem X21_status_200 msg mid gid gver w resp items :
  status_code resp = 200 → json resp = Some (PyDict items) →
  let expected (run : Outcome ChatResponse * St) :=
    if intervened resp
    then ∃ v, fst run = Returned v
              ∧ blocked v = true ∧ blocked_by v = BEDROCK_GUARDRAIL
              ∧ response v = "[BLOCKED by Bedrock Guardrail] "
                             +:+ py_str (generation_of items)
    else ∀ g, generation_of items = PyStr g →
              ∃ v, fst run = Returned v
                   ∧ blocked v = false ∧ blocked_by v = NONE
                   ∧ response v = g in
  (let run := invoke_bedrock_direct msg mid gid gver w st0 in
   answered w (snd run) resp → expected run)
  ∧ (let run := invoke_via_proxy msg mid gid gver w st0 in
     answered w (snd run) resp →
     gateway_block_header resp = false → validation_header_ok resp = true →
     expected run).
Proof.
  intros Hs Hj expected. subst expected. split.
  - intros run Hans. apply direct_answered in Hans as [e He]. fold run in He.
    rewrite (classify_direct_200 _ _ _ _ _ _ Hs Hj) in He.
    destruct (intervened resp).
    + eexists. split; [exact He|]. cbn. by repeat split.
    + intros g Hg. rewrite Hg in He.
      eexists. split; [exact He|]. cbn. by repeat split.
  - intros run Hans Hb Hok. apply proxy_answered in Hans as [e He].
    fold run in He.
    destruct (classify_proxy_200 mid resp e w (snd run) items Hb Hok Hs Hj)
      as [vms Hv].
    rewrite Hv in He.
    destruct (intervened resp).
    + eexists. split; [exact He|]. cbn. by repeat split.
    + intros g Hg. rewrite Hg in He.
      eexists. split; [exact He|]. cbn. by repeat split.
Qed.

(** X22. An invocation answered with a status other than 200 and 400 (on
    the gateway path: without a gateway block, the validation-duration
    header absent, empty or text [float()] accepts) returns a verdict that
    is not blocked and whose text holds the status code and the raw
    body. *)
Theorem X22_unexpected_status msg mid gid gver w resp :
  status_code resp ≠ 200 → status_code resp ≠ 400 →
  (let run := invoke_bedrock_direct msg mid gid gver w st0 in
   answered w (snd run) resp →
   ∃ v, fst run = Returned v
        ∧ blocked v = false ∧ blocked_by v = NONE
        ∧ response v = "[ERROR] Bedrock returned "
                       +:+ pretty (status_code resp) +:+ ": " +:+ text resp)
  ∧ (let run := invoke_via_proxy msg mid gid gver w st0 in
     answered w (snd run) resp →
     gateway_block_header resp = false → validation_header_ok resp = true →
     ∃ v, fst run = Returned v
          ∧ blocked v = false ∧ blocked_by v = NONE
          ∧ response v = "[ERROR] Proxy returned "
                         +:+ pretty (status_code resp) +:+ ": " +:+ text resp).
Proof.
  intros H2 H4. split.
  - intros run Hans. apply direct_answered in Hans as [e He]. fold run in He.
    rewrite (classify_direct_error _ _ _ _ _ H4 H2) in He.
    eexists. split; [exact He|]. cbn. by repeat split.
  - intros run Hans Hb Hok. apply proxy_answered in Hans as [e He].
    fold run in He.
    destruct (classify_proxy_error mid resp e w (snd run) Hb Hok H4 H2)
      as [vms Hv].
    rewrite Hv in He. eexists. split; [exact He|]. cbn. by repeat split.
Qed.

(** ** Headers of the gateway request *)

Lemma forward_headers_lookup keys (auth base : gmap string string) k :
  forward_headers keys auth base !! k
  = if decide (k ∈ keys)
    then match auth !! k with Some v => Some v | None => base !! k end
    else base !! k.
Proof.
  unfold forward_headers. revert base.
  induction keys as [|key keys IH]; intros base; cbn [fold_left].
  - by rewrite decide_False by apply not_elem_of_nil.
  - rewrite IH. destruct (decide (k = key)) as [->|Hne].
    + rewrite (decide_True (P := key ∈ key :: keys)) by apply list_elem_of_here.
      destruct (auth !! key) as [v|] eqn:Hk.
      * rewrite lookup_insert_eq. by destruct (decide _).
      * by destruct (decide _).
    + assert (Hb : (match auth !! key with
                    | Some v => <[key:=v]> base
                    | None => base
                    end) !! k = base !! k).
      { destruct (auth !! key); [by rewrite lookup_insert_ne|done]. }
      rewrite Hb.
      destruct (decide (k ∈ keys)) as [Hin|Hnin].
      * by rewrite decide_True by by apply list_elem_of_further.
      * rewrite decide_False; [done|].
        rewrite elem_of_cons. tauto.
Qed.

Lemma gateway_own_headers_other a b c d e f k :
  k ∉ gateway_own_keys → gateway_own_headers a b c d e f !! k = None.
Proof.
  intros Hk. unfold gateway_own_headers.
  repeat (rewrite lookup_insert_ne;
          [|intros <-; apply Hk; unfold gateway_own_keys; repeat constructor]).
  apply lookup_empty.
Qed.

Lemma forward_keys_not_own k : k ∈ forward_keys → k ∉ gateway_own_keys.
Proof.
  unfold forward_keys, gateway_own_keys. intros Hk Ho.
  repeat (apply elem_of_cons in Hk as [->|Hk];
          [repeat (apply elem_of_cons in Ho as [Ho|Ho]; [discriminate Ho|]);
           by apply elem_of_nil in Ho|]).
  by apply elem_of_nil in Hk.
Qed.

(** A run posts at most one request: the one its trace ends with. *)
Lemma posted_of_run w region body (sig : list Event) auth (b : bool) P req0 req :
  (if b then sig = [] ∧ P else signed_with w region body sig auth) →
  req ∈ posted (sig ++ [EvPost req0]) → req = req0.
Proof.
  intros Hsig Hin.
  assert (Hp : posted (sig ++ [EvPost req0]) = [req0]).
  { destruct b.
    - by destruct Hsig as [-> _].
    - by destruct Hsig as (creds & r & -> & _). }
  rewrite Hp in Hin. by apply list_elem_of_singleton in Hin.
Qed.

(** C9. The request the gateway invoker posts carries the five gateway
    identity headers, the target-endpoint header with the model endpoint
    URL and a Content-Type header; each of [Authorization], [X-Amz-Date],
    [X-Amz-Security-Token], [X-Amz-Content-Sha256],
    [X-Amzn-Bedrock-GuardrailIdentifier] and
    [X-Amzn-Bedrock-GuardrailVersion] exactly when the auth headers hold
    it, with its value there; and no other header. *)
Theorem C9_gateway_headers msg mid gid gver w req :
  let run := invoke_via_proxy msg mid gid gver w st0 in
  let region := default "us-east-1" (environ w !! "AWS_REGION") in
  req ∈ posted (trace (snd run)) →
  ∃ auth,
    (if Text.opt_truthy (environ w !! "AWS_BEARER_TOKEN_BEDROCK")
     then fst (build_bearer_headers gid gver w st0) = Returned auth
     else ∃ sig, signed_with w region
                   (json_dumps_utf8 (build_invoke_body msg)) sig auth)
    ∧ req_headers req !! "X-API-Key" = environ w !! "ETHICALZEN_API_KEY"
    ∧ req_headers req !! "X-DC-Id" = environ w !! "ETHICALZEN_DC_ID"
    ∧ req_headers req !! "X-DC-Digest"
      = Some (default "" (environ w !! "ETHICALZEN_DC_DIGEST"))
    ∧ req_headers req !! "X-DC-Suite"
      = Some (default "bedrock-guardrail-complement"
                (environ w !! "ETHICALZEN_DC_SUITE"))
    ∧ req_headers req !! "X-Tenant-ID"
      = Some (default "default" (environ w !! "ETHICALZEN_TENANT_ID"))
    ∧ req_headers req !! "X-Target-Endpoint"
      = Some (get_bedrock_endpoint region mid)
    ∧ req_headers req !! "Content-Type" = Some "application/json"
    ∧ req_headers req !! "Authorization" = auth !! "Authorization"
    ∧ req_headers req !! "X-Amz-Date" = auth !! "X-Amz-Date"
    ∧ req_headers req !! "X-Amz-Security-Token"
      = auth !! "X-Amz-Security-Token"
    ∧ req_headers req !! "X-Amz-Content-Sha256"
      = auth !! "X-Amz-Content-Sha256"
    ∧ req_headers req !! "X-Amzn-Bedrock-GuardrailIdentifier"
      = auth !! "X-Amzn-Bedrock-GuardrailIdentifier"
    ∧ req_headers req !! "X-Amzn-Bedrock-GuardrailVersion"
      = auth !! "X-Amzn-Bedrock-GuardrailVersion"
    ∧ (∀ k, k ∉ [ "X-API-Key"; "X-DC-Id"; "X-DC-Digest"; "X-DC-Suite";
                  "X-Tenant-ID"; "X-Target-Endpoint"; "Content-Type";
                  "Authorization"; "X-Amz-Date"; "X-Amz-Security-Token";
                  "X-Amz-Content-Sha256";
                  "X-Amzn-Bedrock-GuardrailIdentifier";
                  "X-Amzn-Bedrock-GuardrailVersion" ] →
            req_headers req !! k = None).
Proof.
  intros run region Hin. subst run.
  destruct (invoke_via_proxy msg mid gid gver w st0) as [out st'] eqn:Hrun.
  cbn [snd] in Hin.
  apply proxy_run in Hrun
    as [(k & _ & -> & _)|(sig & auth & api & dc & Hrun)].
  { by apply elem_of_nil in Hin. }
  cbv zeta in Hrun. destruct Hrun as (Hapi & Hdc & Htr & Hsig & _).
  cbn [trace st0 app] in Htr. rewrite Htr in Hin.
  apply (posted_of_run _ _ _ _ _ _ _ _ _ Hsig) in Hin. subst req.
  cbn [req_headers]. fold region. exists auth.
  split.
  { fold region in Hsig. destruct (Text.opt_truthy _); [tauto|eauto]. }
  assert (Hown : ∀ k, k ∈ gateway_own_keys →
            ∀ base, forward_headers forward_keys auth base !! k = base !! k).
  { intros k Hk base. rewrite forward_headers_lookup, decide_False; [done|].
    intros Hf. by apply forward_keys_not_own in Hf. }
  rewrite Hapi, Hdc.
  repeat (split;
    [rewrite Hown by (unfold gateway_own_keys; repeat constructor);
     unfold gateway_own_headers;
     repeat (rewrite lookup_insert_ne by discriminate); apply lookup_insert_eq|]).
  assert (Hfwd : ∀ k a b c d e f, k ∈ forward_keys →
            forward_headers forward_keys auth (gateway_own_headers a b c d e f)
              !! k = auth !! k).
  { intros k a b c d e f Hk.
    rewrite forward_headers_lookup, decide_True by done.
    rewrite gateway_own_headers_other by by apply forward_keys_not_own.
    by destruct (auth !! k). }
  repeat (split; [apply Hfwd; unfold forward_keys; repeat constructor|]).
  intros k Hk. rewrite forward_headers_lookup, decide_False.
  - apply gateway_own_headers_other. intros Ho. apply Hk.
    unfold gateway_own_keys in Ho.
    repeat (apply elem_of_cons in Ho as [->|Ho]; [repeat constructor|]).
    by apply elem_of_nil in Ho.
  - intros Hf. apply Hk. unfold forward_keys in Hf.
    repeat (apply elem_of_cons in Hf as [->|Hf]; [repeat constructor|]).
    by apply elem_of_nil in Hf.
Qed.

(** With the bearer token selected a run signs nothing: whatever it did
    was to post. *)
Lemma bearer_run_posts_only (b : bool) (sig : list Event) P Q req
    (tr : list Event) e :
  b = true →
  (if b then sig = [] ∧ P else Q) →
  tr = sig ++ [EvPost req] →
  e ∈ tr → e = EvPost req.
Proof.
  intros -> [-> _] ->. cbn [app]. by intros ->%list_elem_of_singleton.
Qed.

(** C4. Which credentials are used is read off the environment alone: the
    bearer token when [AWS_BEARER_TOKEN_BEDROCK] is set and not empty, and
    then neither invoker signs anything; request signing otherwise. With
    signing selected and the access key or the secret key missing, signing
    raises [KeyError], and so does either invoker, with nothing signed and
    nothing posted. *)
Theorem C4_credential_strategy msg mid gid gver w st :
  let bearer := Text.opt_truthy (environ w !! "AWS_BEARER_TOKEN_BEDROCK") in
  uses_bearer_token w st = (Returned bearer, st)
  ∧ (bearer = true
     ↔ ∃ tok, environ w !! "AWS_BEARER_TOKEN_BEDROCK" = Some tok ∧ tok ≠ "")
  ∧ (bearer = true →
     (∀ e, e ∈ trace (snd (invoke_bedrock_direct msg mid gid gver w st0)) →
           ∃ req, e = EvPost req)
     ∧ (∀ e, e ∈ trace (snd (invoke_via_proxy msg mid gid gver w st0)) →
             ∃ req, e = EvPost req))
  ∧ (bearer = false →
     environ w !! "AWS_ACCESS_KEY_ID" = None
     ∨ environ w !! "AWS_SECRET_ACCESS_KEY" = None →
     (∀ region body,
        ∃ k, sign_bedrock_request region mid body gid gver w st
             = (Raised (KeyError k), st)
             ∧ (k = "AWS_ACCESS_KEY_ID" ∨ k = "AWS_SECRET_ACCESS_KEY"))
     ∧ (∃ k, invoke_bedrock_direct msg mid gid gver w st
             = (Raised (KeyError k), st)
             ∧ (k = "AWS_ACCESS_KEY_ID" ∨ k = "AWS_SECRET_ACCESS_KEY"))
     ∧ (∃ k, invoke_via_proxy msg mid gid gver w st
             = (Raised (KeyError k), st))).
Proof.
  intros bearer. split; [reflexivity|]. split; [|split].
  - subst bearer. unfold Text.opt_truthy, Text.truthy.
    destruct (environ w !! "AWS_BEARER_TOKEN_BEDROCK") as [[|c tok]|]; split;
      try done.
    + by intros (tok & [= <-] & Hne).
    + intros _. by eexists.
    + by intros (tok & [=] & _).
  - intros Hb. split; intros e Hin.
    + destruct (invoke_bedrock_direct msg mid gid gver w st0)
        as [out st'] eqn:Hrun.
      cbn [snd] in Hin.
      apply direct_run in Hrun as [(k & _ & -> & _)|(sig & hdrs & Hrun)].
      { by apply elem_of_nil in Hin. }
      cbv zeta in Hrun. destruct Hrun as (Htr & Hsig & _).
      cbn [trace st0 app] in Htr. eexists.
      exact (bearer_run_posts_only _ _ _ _ _ _ _ Hb Hsig Htr Hin).
    + destruct (invoke_via_proxy msg mid gid gver w st0)
        as [out st'] eqn:Hrun.
      cbn [snd] in Hin.
      apply proxy_run in Hrun
        as [(k & _ & -> & _)|(sig & auth & api & dc & Hrun)].
      { by apply elem_of_nil in Hin. }
      cbv zeta in Hrun. destruct Hrun as (_ & _ & Htr & Hsig & _).
      cbn [trace st0 app] in Htr. eexists.
      exact (bearer_run_posts_only _ _ _ _ _ _ _ Hb Hsig Htr Hin).
  - intros Hb Hmiss. split; [|split].
    + intros region body. unfold sign_bedrock_request. run_cbn.
      destruct (environ w !! "AWS_ACCESS_KEY_ID") as [ak|]; [|by eauto].
      cbv beta iota.
      destruct (environ w !! "AWS_SECRET_ACCESS_KEY") as [sk|]; [|by eauto].
      by destruct Hmiss.
    + destruct (invoke_bedrock_direct msg mid gid gver w st) as [out st'] eqn:Hrun.
      apply direct_run in Hrun
        as [(k & -> & -> & _ & Hk & _)|(sig & hdrs & Hrun)]; [by eauto|].
      cbv zeta in Hrun. destruct Hrun as (_ & Hsig & _).
      fold bearer in Hsig. rewrite Hb in Hsig.
      destruct Hsig as (creds & r & _ & Hak & Hsk & _).
      destruct Hmiss; congruence.
    + destruct (invoke_via_proxy msg mid gid gver w st) as [out st'] eqn:Hrun.
      apply proxy_run in Hrun
        as [(k & -> & -> & _)|(sig & auth & api & dc & Hrun)]; [by eauto|].
      cbv zeta in Hrun. destruct Hrun as (_ & _ & _ & Hsig & _).
      fold bearer in Hsig. rewrite Hb in Hsig.
      destruct Hsig as (creds & r & _ & Hak & Hsk & _).
      destruct Hmiss; congruence.
Qed.

(** C8. In signing mode the bytes the signature is computed over are the
    bytes sent: [sign_bedrock_request] returns the byte string it gave the
    signer, and the request either invoker posts has exactly those bytes
    as its content. *)
Theorem C8_signed_bytes_are_sent msg mid gid gver w :
  Text.opt_truthy (environ w !! "AWS_BEARER_TOKEN_BEDROCK") = false →
  (∀ region body st url hdrs bytes st',
     sign_bedrock_request region mid body gid gver w st
     = (Returned (url, hdrs, bytes), st') →
     ∃ creds r,
       trace st' = trace st ++ [EvSign creds "bedrock" region r]
       ∧ aws_data r = bytes
       ∧ hdrs = sigv4_add_auth creds "bedrock" region (utcnow w) r)
  ∧ (∀ req,
       req ∈ posted (trace (snd (invoke_bedrock_direct msg mid gid gver w st0))) →
       ∃ creds region r,
         trace (snd (invoke_bedrock_direct msg mid gid gver w st0))
         = [EvSign creds "bedrock" region r; EvPost req]
         ∧ aws_data r = req_content req
         ∧ req_headers req = sigv4_add_auth creds "bedrock" region (utcnow w) r)
  ∧ (∀ req,
       req ∈ posted (trace (snd (invoke_via_proxy msg mid gid gver w st0))) →
       ∃ creds region r,
         trace (snd (invoke_via_proxy msg mid gid gver w st0))
         = [EvSign creds "bedrock" region r; EvPost req]
         ∧ aws_data r = req_content req).
Proof.
  intros Hb. split; [|split].
  - intros region body st url hdrs bytes st'.
    unfold sign_bedrock_request. run_cbn.
    destruct (environ w !! "AWS_ACCESS_KEY_ID") as [ak|]; [|done].
    cbv beta iota.
    destruct (environ w !! "AWS_SECRET_ACCESS_KEY") as [sk|]; [|done].
    cbv beta iota. intros [= <- <- <- <-]. cbn [trace].
    by eexists (Build_Credentials _ _ _), _.
  - intros req Hin.
    destruct (invoke_bedrock_direct msg mid gid gver w st0) as [out st'] eqn:Hrun.
    cbn [snd] in *.
    apply direct_run in Hrun
      as [(k & _ & -> & _)|(sig & hdrs & Hrun)].
    { by apply elem_of_nil in Hin. }
    cbv zeta in Hrun. destruct Hrun as (Htr & Hsig & _).
    cbn [trace st0 app] in Htr. rewrite Htr in Hin.
    pose proof (posted_of_run _ _ _ _ _ _ _ _ _ Hsig Hin) as ->.
    rewrite Hb in Hsig. destruct Hsig as (creds & r & -> & _ & _ & Hdata & ->).
    eexists creds, _, r. rewrite Htr. by repeat split.
  - intros req Hin.
    destruct (invoke_via_proxy msg mid gid gver w st0) as [out st'] eqn:Hrun.
    cbn [snd] in *.
    apply proxy_run in Hrun
      as [(k & _ & -> & _)|(sig & auth & api & dc & Hrun)].
    { by apply elem_of_nil in Hin. }
    cbv zeta in Hrun. destruct Hrun as (_ & _ & Htr & Hsig & _).
    cbn [trace st0 app] in Htr. rewrite Htr in Hin.
    pose proof (posted_of_run _ _ _ _ _ _ _ _ _ Hsig Hin) as ->.
    rewrite Hb in Hsig. destruct Hsig as (creds & r & -> & _ & _ & Hdata & ->).
    eexists creds, _, r. rewrite Htr. by repeat split.
Qed.

(** * Further properties *)
(** ** Further properties of the classifiers *)

(** What every verdict of the direct classifier echoes. *)
Lemma classify_direct_echo mid resp e w st v :
  fst (classify_direct mid resp e w st) = Returned v →
  resp_mode v = DIRECT ∧ model v = mid ∧ total_latency_ms v = e.
Proof.
  unfold classify_direct, bind, ret, lift, try_except.
  unfold resp_json, dict_get, ChatResponse_new.
  destruct (status_code resp =? 400).
  - destruct (json resp) as [[| | | | |items]|]; cbn; by intros [= <-].
  - destruct (negb (status_code resp =? 200)); [cbn; by intros [= <-]|].
    destruct (json resp) as [[| | | | |items]|]; cbn; try done.
    destruct (bool_decide _); cbn; [by intros [= <-]|].
    destruct (default _ _); cbn; try done. by intros [= <-].
Qed.

(** What every verdict of the gateway classifier echoes: the mode, the
    model, and the three gateway headers of the response. *)
Lemma classify_proxy_echo mid resp e w st v :
  fst (classify_proxy mid resp e w st) = Returned v →
  resp_mode v = MODE_A ∧ model v = mid ∧ total_latency_ms v = e
  ∧ trace_id v = headers_get (headers resp) "X-ACVPS-Trace-ID"
  ∧ ethicalzen_status v = headers_get (headers resp) "X-ACVPS-Status"
  ∧ validation_ms v = reported_validation_ms resp.
Proof.
  unfold classify_proxy, reported_validation_ms, bind, ret, lift, try_except.
  unfold resp_json, dict_get, ChatResponse_new, py_float.
  destruct (headers_get _ "X-ACVPS-Validation-Ms") as [raw|];
    [destruct (Text.truthy raw); [destruct (float_accepts raw)|]|];
    cbv beta iota; try done.
  all: destruct (acvps_blocks _);
    [destruct (json resp) as [[| | | | |items]|]; cbn; by intros [= <-]|].
  all: destruct (status_code resp =? 400);
    [destruct (json resp) as [[| | | | |items]|]; cbn; by intros [= <-]|].
  all: destruct (negb (status_code resp =? 200)); [cbn; by intros [= <-]|].
  all: destruct (json resp) as [[| | | | |items]|]; cbn; try done.
  all: destruct (bool_decide _); cbn; [by intros [= <-]|].
  all: destruct (default _ _); cbn; try done; by intros [= <-].
Qed.

(** X1. Whatever the gateway invoker returns, blocked, passed or error
    verdict alike, carries the trace id, the status label and the
    validation duration of the answering response's headers. *)
Theorem X1_gateway_verdict_carries_headers msg mid gid gver w resp v :
  let run := invoke_via_proxy msg mid gid gver w st0 in
  answered w (snd run) resp → fst run = Returned v →
  trace_id v = headers_get (headers resp) "X-ACVPS-Trace-ID"
  ∧ ethicalzen_status v = headers_get (headers resp) "X-ACVPS-Status"
  ∧ validation_ms v = reported_validation_ms resp.
Proof.
  intros run Hans Hv. apply proxy_answered in Hans as [e He]. fold run in He.
  rewrite Hv in He. symmetry in He.
  apply classify_proxy_echo in He. tauto.
Qed.

(** X2. A verdict names the path that produced it and the model it was
    asked for: [DIRECT] from the direct invoker, [MODE_A] from the gateway
    invoker, with the caller's model id. *)
Theorem X2_verdict_names_mode_and_model msg mid gid gver w st v :
  (fst (invoke_bedrock_direct msg mid gid gver w st) = Returned v →
   resp_mode v = DIRECT ∧ model v = mid)
  ∧ (fst (invoke_via_proxy msg mid gid gver w st) = Returned v →
     resp_mode v = MODE_A ∧ model v = mid).
Proof.
  split; intros Hv.
  - apply direct_verdict_classified in Hv as (resp & e & st' & Hv).
    apply classify_direct_echo in Hv. tauto.
  - apply proxy_verdict_classified in Hv as (resp & e & st' & Hv).
    apply classify_proxy_echo in Hv. tauto.
Qed.

(** X3. On the gateway path a response with status 400 and no gateway
    block (the validation-duration header usable) is a first-layer block:
    the text carries the JSON body's [message] field, else the raw body. *)
Theorem X3_gateway_400_is_first_layer msg mid gid gver w resp :
  let run := invoke_via_proxy msg mid gid gver w st0 in
  answered w (snd run) resp → status_code resp = 400 →
  gateway_block_header resp = false → validation_header_ok resp = true →
  ∃ v, fst run = Returned v
       ∧ blocked v = true ∧ blocked_by v = BEDROCK_GUARDRAIL
       ∧ response v = "[BLOCKED by Bedrock Guardrail] "
                      +:+ py_str (spec_guardrail_message resp).
Proof.
  intros run Hans Hs Hb Hok. apply proxy_answered in Hans as [e He].
  fold run in He.
  destruct (classify_proxy_400 mid resp e w (snd run) Hb Hok Hs) as [vms Hv].
  rewrite Hv in He. eexists. split; [exact He|]. cbn. by repeat split.
Qed.

(** Status 200 on the direct path with a body that gives no string to
    return. *)
Lemma classify_direct_200_unusable mid resp e w st :
  status_code resp = 200 →
  (json resp = None →
   fst (classify_direct mid resp e w st) = Raised JSONDecodeError)
  ∧ (∀ j, json resp = Some j → (∀ items, j ≠ PyDict items) →
          fst (classify_direct mid resp e w st) = Raised AttributeError)
  ∧ (∀ items, json resp = Some (PyDict items) → intervened resp = false →
              (∀ g, generation_of items ≠ PyStr g) →
              fst (classify_direct mid resp e w st) = Raised ValidationError).
Proof.
  intros Hs. split; [|split].
  - intros Hj. unfold classify_direct, bind, lift, resp_json.
    by rewrite Hs, Hj.
  - intros j Hj Hnd. unfold classify_direct, bind, lift, resp_json, dict_get.
    rewrite Hs, Hj. destruct j; try done. by destruct (Hnd items).
  - intros items Hj Hi Hg.
    rewrite (classify_direct_200 _ _ _ _ _ _ Hs Hj), Hi.
    destruct (generation_of items); try done. by destruct (Hg s).
Qed.

(** X4. Status 200 on the direct path with a body that cannot be used:
    a body that is not JSON raises [JSONDecodeError], a JSON body that is not
    an object raises [AttributeError], and, the guardrail not having
    intervened, a [generation] that is not a string raises
    [ValidationError]; none of them yields a verdict. *)
Theorem X4_direct_200_unusable_body msg mid gid gver w resp :
  let run := invoke_bedrock_direct msg mid gid gver w st0 in
  answered w (snd run) resp → status_code resp = 200 →
  (json resp = None → fst run = Raised JSONDecodeError)
  ∧ (∀ j, json resp = Some j → (∀ items, j ≠ PyDict items) →
          fst run = Raised AttributeError)
  ∧ (∀ items, json resp = Some (PyDict items) → intervened resp = false →
              (∀ g, generation_of items ≠ PyStr g) →
              fst run = Raised ValidationError).
Proof.
  intros run Hans Hs. apply direct_answered in Hans as [e He]. fold run in He.
  rewrite He. by apply classify_direct_200_unusable.
Qed.

(** X5. A gateway response whose validation-duration header is not empty
    and not text [float()] accepts makes the gateway invoker raise
    [ValueError], whatever its status, its other headers and its body. *)
Theorem X5_gateway_bad_duration_raises msg mid gid gver w resp raw :
  let run := invoke_via_proxy msg mid gid gver w st0 in
  answered w (snd run) resp →
  headers_get (headers resp) "X-ACVPS-Validation-Ms" = Some raw →
  Text.truthy raw = true → float_accepts raw = false →
  fst run = Raised ValueError.
Proof.
  intros run Hans Hraw Ht Hbad. apply proxy_answered in Hans as [e He].
  fold run in He. rewrite He.
  unfold classify_proxy, bind, lift, py_float.
  by rewrite Hraw, Ht, Hbad.
Qed.

(** ** The invokers, stage by stage *)

Lemma sign_bedrock_request_eq region mid body gid gver w st :
  sign_bedrock_request region mid body gid gver w st
  = match environ w !! "AWS_ACCESS_KEY_ID" with
    | None => (Raised (KeyError "AWS_ACCESS_KEY_ID"), st)
    | Some access_key =>
        match environ w !! "AWS_SECRET_ACCESS_KEY" with
        | None => (Raised (KeyError "AWS_SECRET_ACCESS_KEY"), st)
        | Some secret_key =>
            let creds := {| cred_access_key := access_key;
                            cred_secret_key := secret_key;
                            cred_token := environ w !! "AWS_SESSION_TOKEN" |} in
            let r := {| aws_method := "POST";
                        aws_url := get_bedrock_endpoint region mid;
                        aws_data := json_dumps_utf8 body;
                        aws_headers :=
                          set_if_truthy "X-Amzn-Bedrock-GuardrailVersion" gver
                            (set_if_truthy "X-Amzn-Bedrock-GuardrailIdentifier" gid
                               (<["Accept" := "application/json"]>
                                  (<["Content-Type" := "application/json"]> ∅))) |} in
            (Returned (get_bedrock_endpoint region mid,
                       sigv4_add_auth creds "bedrock" region (utcnow w) r,
                       json_dumps_utf8 body),
             {| trace := trace st ++ [EvSign creds "bedrock" region r];
                ticks := ticks st |})
        end
    end.
Proof.
  unfold sign_bedrock_request. run_cbn.
  destruct (environ w !! "AWS_ACCESS_KEY_ID"); [|done].
  by destruct (environ w !! "AWS_SECRET_ACCESS_KEY").
Qed.

Lemma build_bearer_headers_eq gid gver w st :
  build_bearer_headers gid gver w st
  = match environ w !! "AWS_BEARER_TOKEN_BEDROCK" with
    | None => (Raised (KeyError "AWS_BEARER_TOKEN_BEDROCK"), st)
    | Some token =>
        (Returned
           (set_if_truthy "X-Amzn-Bedrock-GuardrailVersion" gver
              (set_if_truthy "X-Amzn-Bedrock-GuardrailIdentifier" gid
                 (<["Authorization" := "Bearer " +:+ token]>
                    (<["Accept" := "application/json"]>
                       (<["Content-Type" := "application/json"]> ∅))))), st)
    end.
Proof.
  unfold build_bearer_headers. run_cbn.
  by destruct (environ w !! "AWS_BEARER_TOKEN_BEDROCK").
Qed.

(** The direct invoker is its three stages in a row: the auth headers, the
    post between two readings of the clock, the classifier. *)
Lemma direct_stages msg mid gid gver w st :
  let region := default "us-east-1" (environ w !! "AWS_REGION") in
  invoke_bedrock_direct msg mid gid gver w st
  = match auth_headers_and_body region mid (build_invoke_body msg) gid gver w st with
    | (Raised exc, st1) => (Raised exc, st1)
    | (Returned (hdrs, bytes), st1) =>
        let req := {| req_url := get_bedrock_endpoint region mid;
                      req_headers := hdrs; req_content := bytes;
                      req_timeout := 30 |} in
        match network w req with
        | Responded resp =>
            classify_direct mid resp (elapsed_ms_at w (ticks st1)) w
              (after_post st1 req)
        | ConnectionFailed =>
            (Raised ConnectError,
             {| trace := trace st1 ++ [EvPost req]; ticks := S (ticks st1) |})
        | TimedOut =>
            (Raised TimeoutException,
             {| trace := trace st1 ++ [EvPost req]; ticks := S (ticks st1) |})
        end
    end.
Proof.
  intros region. unfold invoke_bedrock_direct, auth_headers_and_body.
  repeat run_cbn. fold region.
  destruct (Text.opt_truthy (environ w !! "AWS_BEARER_TOKEN_BEDROCK")).
  - destruct (build_bearer_headers gid gver w st) as [[hdrs|exc] st1]; [|done].
    cbv beta iota zeta. cbn [trace ticks fst snd].
    by destruct (network w _).
  - rewrite sign_bedrock_request_eq.
    destruct (environ w !! "AWS_ACCESS_KEY_ID"); [|done].
    destruct (environ w !! "AWS_SECRET_ACCESS_KEY"); [|done].
    cbv beta iota zeta. cbn [trace ticks fst snd].
    by destruct (network w _).
Qed.

(** The gateway invoker likewise, after its two required settings. *)
Lemma proxy_stages msg mid gid gver w st :
  let region := default "us-east-1" (environ w !! "AWS_REGION") in
  invoke_via_proxy msg mid gid gver w st
  = match environ w !! "ETHICALZEN_API_KEY" with
    | None => (Raised (KeyError "ETHICALZEN_API_KEY"), st)
    | Some api_key =>
    match environ w !! "ETHICALZEN_DC_ID" with
    | None => (Raised (KeyError "ETHICALZEN_DC_ID"), st)
    | Some dc_id =>
    match auth_headers_and_body region mid (build_invoke_body msg) gid gver w st with
    | (Raised exc, st1) => (Raised exc, st1)
    | (Returned (auth, bytes), st1) =>
        let req :=
          {| req_url :=
               Text.rstrip_char "/"
                 (default "https://gateway.ethicalzen.ai"
                    (environ w !! "ETHICALZEN_PROXY_URL")) +:+ "/api/proxy";
             req_headers :=
               forward_headers forward_keys auth
                 (gateway_own_headers api_key dc_id
                    (default "" (environ w !! "ETHICALZEN_DC_DIGEST"))
                    (default "bedrock-guardrail-complement"
                       (environ w !! "ETHICALZEN_DC_SUITE"))
                    (get_bedrock_endpoint region mid)
                    (default "default" (environ w !! "ETHICALZEN_TENANT_ID")));
             req_content := bytes; req_timeout := 30 |} in
        match network w req with
        | Responded resp =>
            classify_proxy mid resp (elapsed_ms_at w (ticks st1)) w
              (after_post st1 req)
        | ConnectionFailed =>
            (Raised ConnectError,
             {| trace := trace st1 ++ [EvPost req]; ticks := S (ticks st1) |})
        | TimedOut =>
            (Raised TimeoutException,
             {| trace := trace st1 ++ [EvPost req]; ticks := S (ticks st1) |})
        end
    end end end.
Proof.
  intros region. unfold invoke_via_proxy, auth_headers_and_body.
  repeat run_cbn. fold region.
  destruct (environ w !! "ETHICALZEN_API_KEY") as [api_key|]; [|done].
  destruct (environ w !! "ETHICALZEN_DC_ID") as [dc_id|]; [|done].
  cbv beta iota zeta.
  destruct (Text.opt_truthy (environ w !! "AWS_BEARER_TOKEN_BEDROCK")).
  - destruct (build_bearer_headers gid gver w st) as [[hdrs|exc] st1]; [|done].
    cbv beta iota zeta. cbn [trace ticks fst snd].
    by destruct (network w _).
  - rewrite sign_bedrock_request_eq.
    destruct (environ w !! "AWS_ACCESS_KEY_ID"); [|done].
    destruct (environ w !! "AWS_SECRET_ACCESS_KEY"); [|done].
    cbv beta iota zeta. cbn [trace ticks fst snd].
    by destruct (network w _).
Qed.

(** The auth stage: the bearer branch when the token is set and not empty,
    the signing branch otherwise. *)
Lemma auth_headers_and_body_eq region mid body gid gver w st :
  auth_headers_and_body region mid body gid gver w st
  = if Text.opt_truthy (environ w !! "AWS_BEARER_TOKEN_BEDROCK")
    then match build_bearer_headers gid gver w st with
         | (Returned hdrs, st1) => (Returned (hdrs, json_dumps_utf8 body), st1)
         | (Raised exc, st1) => (Raised exc, st1)
         end
    else match sign_bedrock_request region mid body gid gver w st with
         | (Returned (_, hdrs, bytes), st1) => (Returned (hdrs, bytes), st1)
         | (Raised exc, st1) => (Raised exc, st1)
         end.
Proof.
  unfold auth_headers_and_body. repeat run_cbn.
  destruct (Text.opt_truthy (environ w !! "AWS_BEARER_TOKEN_BEDROCK")).
  - by destruct (build_bearer_headers gid gver w st) as [[hdrs|exc] st1].
  - by destruct (sign_bedrock_request region mid body gid gver w st)
      as [[[[url hdrs] bytes]|exc] st1].
Qed.

Lemma opt_truthy_Some o :
  Text.opt_truthy o = true → ∃ s, o = Some s ∧ Text.truthy s = true.
Proof. destruct o as [s|]; [|done]. intros Hs. by exists s. Qed.

(** What the auth stage leaves behind: nothing when it raises, which it
    does on a missing setting only; else the bytes of the body, the clock
    unread, and at most one signature. *)
Lemma auth_stage_shape region mid body gid gver w st :
  match auth_headers_and_body region mid body gid gver w st with
  | (Raised exc, st1) =>
      st1 = st
      ∧ Text.opt_truthy (environ w !! "AWS_BEARER_TOKEN_BEDROCK") = false
      ∧ ((exc = KeyError "AWS_ACCESS_KEY_ID"
          ∧ environ w !! "AWS_ACCESS_KEY_ID" = None)
         ∨ (exc = KeyError "AWS_SECRET_ACCESS_KEY"
            ∧ environ w !! "AWS_ACCESS_KEY_ID" ≠ None
            ∧ environ w !! "AWS_SECRET_ACCESS_KEY" = None))
  | (Returned (hdrs, bytes), st1) =>
      bytes = json_dumps_utf8 body ∧ ticks st1 = ticks st
      ∧ posted (trace st1) = posted (trace st)
      ∧ List.filter is_log (trace st1) = List.filter is_log (trace st)
  end.
Proof.
  rewrite auth_headers_and_body_eq.
  destruct (Text.opt_truthy (environ w !! "AWS_BEARER_TOKEN_BEDROCK")) eqn:Hb.
  - apply opt_truthy_Some in Hb as (tok & Htok & _).
    rewrite build_bearer_headers_eq, Htok. done.
  - rewrite sign_bedrock_request_eq.
    destruct (environ w !! "AWS_ACCESS_KEY_ID"); [|by auto].
    destruct (environ w !! "AWS_SECRET_ACCESS_KEY").
    + cbv beta iota zeta. cbn [trace ticks].
      repeat split.
      * induction (trace st) as [|[] tr IH]; cbn; by rewrite ?IH.
      * rewrite List.filter_app. cbn. by rewrite app_nil_r.
    + repeat split. right. by repeat split.
Qed.

Lemma posted_snoc tr req : posted (tr ++ [EvPost req]) = posted tr ++ [req].
Proof. induction tr as [|[] tr IH]; cbn; by rewrite ?IH. Qed.

Lemma posted_log tr r gid gver : posted (tr ++ [EvLog r gid gver]) = posted tr.
Proof. induction tr as [|[] tr IH]; cbn; by rewrite ?IH. Qed.


Lemma filter_log_post tr req :
  List.filter is_log (tr ++ [EvPost req]) = List.filter is_log tr.
Proof. rewrite List.filter_app. cbn. by rewrite app_nil_r. Qed.

(** A run of the direct invoker: the auth stage fails and nothing is
    done, or one request is posted and the network's answer decides. *)
Lemma direct_shape msg mid gid gver w st :
  let run := invoke_bedrock_direct msg mid gid gver w st in
  let region := default "us-east-1" (environ w !! "AWS_REGION") in
  let body := build_invoke_body msg in
  (∃ exc, run = (Raised exc, st)
          ∧ auth_headers_and_body region mid body gid gver w st
            = (Raised exc, st))
  ∨ (∃ hdrs st1,
       let req := {| req_url := get_bedrock_endpoint region mid;
                     req_headers := hdrs;
                     req_content := json_dumps_utf8 body;
                     req_timeout := 30 |} in
       auth_headers_and_body region mid body gid gver w st
       = (Returned (hdrs, json_dumps_utf8 body), st1)
       ∧ trace (snd run) = trace st1 ++ [EvPost req]
       ∧ posted (trace (snd run)) = posted (trace st) ++ [req]
       ∧ List.filter is_log (trace (snd run)) = List.filter is_log (trace st)
       ∧ match network w req with
         | Responded resp =>
             fst run = fst (classify_direct mid resp
                              (elapsed_ms_at w (ticks st)) w (snd run))
             ∧ ticks (snd run) = S (S (ticks st))
         | ConnectionFailed => fst run = Raised ConnectError
         | TimedOut => fst run = Raised TimeoutException
         end).
Proof.
  intros run region body. subst run.
  rewrite direct_stages. fold region body.
  pose proof (auth_stage_shape region mid body gid gver w st) as Hauth.
  destruct (auth_headers_and_body region mid body gid gver w st)
    as [[[hdrs bytes]|exc] st1].
  - destruct Hauth as (-> & Ht & Hp & Hl). right. exists hdrs, st1.
    cbv zeta. split; [done|].
    destruct (network w _) as [resp| |].
    + rewrite (surjective_pairing (classify_direct _ _ _ _ _)).
      rewrite classify_direct_state. cbn [fst snd].
      unfold after_post. cbn [trace ticks].
      rewrite posted_snoc, filter_log_post, Hp, Hl, Ht. done.
    + cbn [fst snd trace]. by rewrite posted_snoc, filter_log_post, Hp, Hl.
    + cbn [fst snd trace]. by rewrite posted_snoc, filter_log_post, Hp, Hl.
  - destruct Hauth as (-> & _). left. by exists exc.
Qed.

(** A run of the gateway invoker. *)
Lemma proxy_shape msg mid gid gver w st :
  let run := invoke_via_proxy msg mid gid gver w st in
  let region := default "us-east-1" (environ w !! "AWS_REGION") in
  let body := build_invoke_body msg in
  (run = (Raised (KeyError "ETHICALZEN_API_KEY"), st)
   ∧ environ w !! "ETHICALZEN_API_KEY" = None)
  ∨ (run = (Raised (KeyError "ETHICALZEN_DC_ID"), st)
     ∧ environ w !! "ETHICALZEN_API_KEY" ≠ None
     ∧ environ w !! "ETHICALZEN_DC_ID" = None)
  ∨ (∃ exc, run = (Raised exc, st)
            ∧ environ w !! "ETHICALZEN_API_KEY" ≠ None
            ∧ environ w !! "ETHICALZEN_DC_ID" ≠ None
            ∧ auth_headers_and_body region mid body gid gver w st
              = (Raised exc, st))
  ∨ (∃ api_key dc_id auth st1,
       let req :=
         {| req_url :=
              Text.rstrip_char "/"
                (default "https://gateway.ethicalzen.ai"
                   (environ w !! "ETHICALZEN_PROXY_URL")) +:+ "/api/proxy";
            req_headers :=
              forward_headers forward_keys auth
                (gateway_own_headers api_key dc_id
                   (default "" (environ w !! "ETHICALZEN_DC_DIGEST"))
                   (default "bedrock-guardrail-complement"
                      (environ w !! "ETHICALZEN_DC_SUITE"))
                   (get_bedrock_endpoint region mid)
                   (default "default" (environ w !! "ETHICALZEN_TENANT_ID")));
            req_content := json_dumps_utf8 body; req_timeout := 30 |} in
       environ w !! "ETHICALZEN_API_KEY" = Some api_key
       ∧ environ w !! "ETHICALZEN_DC_ID" = Some dc_id
       ∧ auth_headers_and_body region mid body gid gver w st
         = (Returned (auth, json_dumps_utf8 body), st1)
       ∧ trace (snd run) = trace st1 ++ [EvPost req]
       ∧ posted (trace (snd run)) = posted (trace st) ++ [req]
       ∧ List.filter is_log (trace (snd run)) = List.filter is_log (trace st)
       ∧ match network w req with
         | Responded resp =>
             fst run = fst (classify_proxy mid resp
                              (elapsed_ms_at w (ticks st)) w (snd run))
             ∧ ticks (snd run) = S (S (ticks st))
         | ConnectionFailed => fst run = Raised ConnectError
         | TimedOut => fst run = Raised TimeoutException
         end).
Proof.
  intros run region body. subst run.
  rewrite proxy_stages. fold region body.
  destruct (environ w !! "ETHICALZEN_API_KEY") as [api_key|]; [|by left].
  destruct (environ w !! "ETHICALZEN_DC_ID") as [dc_id|];
    [|by right; left].
  right; right.
  pose proof (auth_stage_shape region mid body gid gver w st) as Hauth.
  destruct (auth_headers_and_body region mid body gid gver w st)
    as [[[auth bytes]|exc] st1].
  - destruct Hauth as (-> & Ht & Hp & Hl). right. exists api_key, dc_id, auth, st1.
    cbv zeta. do 3 (split; [done|]).
    destruct (network w _) as [resp| |].
    + rewrite (surjective_pairing (classify_proxy _ _ _ _ _)).
      rewrite classify_proxy_state. cbn [fst snd].
      unfold after_post. cbn [trace ticks].
      rewrite posted_snoc, filter_log_post, Hp, Hl, Ht. done.
    + cbn [fst snd trace]. by rewrite posted_snoc, filter_log_post, Hp, Hl.
    + cbn [fst snd trace]. by rewrite posted_snoc, filter_log_post, Hp, Hl.
  - destruct Hauth as (-> & _). left. by exists exc.
Qed.

Lemma set_if_truthy_lookup key value (hdrs : gmap string string) k :
  set_if_truthy key value hdrs !! k
  = if decide (k = key)
    then (if Text.opt_truthy value then value else hdrs !! k)
    else hdrs !! k.
Proof.
  unfold set_if_truthy, Text.opt_truthy.
  destruct value as [v|]; [destruct (Text.truthy v)|]; destruct (decide (k = key)) as [->|Hk];
    try done.
  - by rewrite lookup_insert_eq.
  - by rewrite lookup_insert_ne.
Qed.

(** The auth stage by cases: the bearer branch with its headers, or what
    signing gives. *)
Lemma auth_stage_cases region mid body gid gver w st :
  (∃ tok, environ w !! "AWS_BEARER_TOKEN_BEDROCK" = Some tok
          ∧ Text.truthy tok = true
          ∧ auth_headers_and_body region mid body gid gver w st
            = (Returned
                 (set_if_truthy "X-Amzn-Bedrock-GuardrailVersion" gver
                    (set_if_truthy "X-Amzn-Bedrock-GuardrailIdentifier" gid
                       (<["Authorization" := "Bearer " +:+ tok]>
                          (<["Accept" := "application/json"]>
                             (<["Content-Type" := "application/json"]> ∅)))),
                  json_dumps_utf8 body), st))
  ∨ (Text.opt_truthy (environ w !! "AWS_BEARER_TOKEN_BEDROCK") = false
     ∧ auth_headers_and_body region mid body gid gver w st
       = match sign_bedrock_request region mid body gid gver w st with
         | (Returned (_, hdrs, bytes), st1) => (Returned (hdrs, bytes), st1)
         | (Raised exc, st1) => (Raised exc, st1)
         end).
Proof.
  rewrite auth_headers_and_body_eq.
  destruct (Text.opt_truthy (environ w !! "AWS_BEARER_TOKEN_BEDROCK")) eqn:Hb.
  - apply opt_truthy_Some in Hb as (tok & Htok & Ht). left. exists tok.
    by rewrite build_bearer_headers_eq, Htok.
  - by right.
Qed.

(** X6. An invocation makes one attempt: it stops on a missing setting
    with nothing done, or posts exactly one request, with a timeout of 30
    seconds and the JSON bytes of the Llama body as content; the direct
    invoker posts it to the model endpoint of the region, the gateway
    invoker to the gateway's [/api/proxy]. *)
Theorem X6_one_request_per_invocation msg mid gid gver w st :
  let region := default "us-east-1" (environ w !! "AWS_REGION") in
  let bytes := json_dumps_utf8 (build_invoke_body msg) in
  (let run := invoke_bedrock_direct msg mid gid gver w st in
   (snd run = st ∧ ∃ k, fst run = Raised (KeyError k))
   ∨ (∃ hdrs,
        posted (trace (snd run))
        = posted (trace st)
          ++ [ {| req_url := get_bedrock_endpoint region mid;
                  req_headers := hdrs; req_content := bytes;
                  req_timeout := 30 |} ]))
  ∧ (let run := invoke_via_proxy msg mid gid gver w st in
     (snd run = st ∧ ∃ k, fst run = Raised (KeyError k))
     ∨ (∃ hdrs,
          posted (trace (snd run))
          = posted (trace st)
            ++ [ {| req_url :=
                      Text.rstrip_char "/"
                        (default "https://gateway.ethicalzen.ai"
                           (environ w !! "ETHICALZEN_PROXY_URL"))
                      +:+ "/api/proxy";
                    req_headers := hdrs; req_content := bytes;
                    req_timeout := 30 |} ])).
Proof.
  intros region bytes.
  assert (Hauth : ∀ exc,
            auth_headers_and_body region mid (build_invoke_body msg) gid gver w st
            = (Raised exc, st) → ∃ k, exc = KeyError k).
  { intros exc Hexc.
    pose proof (auth_stage_shape region mid (build_invoke_body msg) gid gver w st)
      as Hs.
    rewrite Hexc in Hs. destruct Hs as (_ & _ & [[-> _]|[-> _]]); eauto. }
  split; intros run.
  - destruct (direct_shape msg mid gid gver w st)
      as [(exc & Hrun & Hexc)|(hdrs & st1 & _ & _ & Hp & _)].
    + left. subst run. rewrite Hrun. split; [done|].
      destruct (Hauth exc Hexc) as [k ->]. by exists k.
    + right. by exists hdrs.
  - destruct (proxy_shape msg mid gid gver w st)
      as [[Hrun _]|[[Hrun _]|[(exc & Hrun & _ & _ & Hexc)
         |(api_key & dc_id & auth & st1 & _ & _ & _ & _ & Hp & _)]]].
    + left. subst run. rewrite Hrun. split; [done|]. by eexists.
    + left. subst run. rewrite Hrun. split; [done|]. by eexists.
    + left. subst run. rewrite Hrun. split; [done|].
      destruct (Hauth exc Hexc) as [k ->]. by exists k.
    + right. by eexists.
Qed.

(** X7. The gateway is handed the request the direct path would send: for
    the same message, model, guardrail and settings, the request the
    gateway invoker posts names the URL of the direct request as its target
    endpoint, has the same content and timeout, and carries every header of
    the allowlist exactly as the direct request has it. *)
Theorem X7_gateway_request_mirrors_direct msg mid gid gver w rd rp :
  rd ∈ posted (trace (snd (invoke_bedrock_direct msg mid gid gver w st0))) →
  rp ∈ posted (trace (snd (invoke_via_proxy msg mid gid gver w st0))) →
  req_headers rp !! "X-Target-Endpoint" = Some (req_url rd)
  ∧ req_content rp = req_content rd
  ∧ req_timeout rp = req_timeout rd
  ∧ (∀ k, k ∈ forward_keys → req_headers rp !! k = req_headers rd !! k).
Proof.
  intros Hd Hp.
  destruct (direct_shape msg mid gid gver w st0)
    as [(exc & Hrun & _)|(hdrs & st1 & Hauth & _ & Hposted & _)].
  { rewrite Hrun in Hd. by apply elem_of_nil in Hd. }
  rewrite Hposted in Hd. cbn [st0 trace posted app] in Hd. apply list_elem_of_singleton in Hd as ->.
  destruct (proxy_shape msg mid gid gver w st0)
    as [[Hrun _]|[[Hrun _]|[(exc & Hrun & _)
       |(api_key & dc_id & auth & st2 & _ & _ & Hauth' & _ & Hposted' & _)]]];
    try (rewrite Hrun in Hp; by apply elem_of_nil in Hp).
  rewrite Hposted' in Hp. cbn [st0 trace posted app] in Hp. apply list_elem_of_singleton in Hp as ->.
  rewrite Hauth in Hauth'. injection Hauth' as <- <-.
  cbn [req_headers req_url req_content req_timeout].
  split; [|split; [done|split; [done|]]].
  - rewrite forward_headers_lookup.
    rewrite decide_False; [done|].
    unfold forward_keys. intros Hk.
    repeat (apply elem_of_cons in Hk as [Hk|Hk]; [discriminate Hk|]).
    by apply elem_of_nil in Hk.
  - intros k Hk. rewrite forward_headers_lookup, decide_True by done.
    rewrite gateway_own_headers_other by by apply forward_keys_not_own.
    by destruct (hdrs !! k).
Qed.

(** The headers common to both credential branches: the lookups of a map
    built by the two guardrail settings over [base]. *)
Lemma guardrail_headers_lookup gid gver (base : gmap string string) k :
  set_if_truthy "X-Amzn-Bedrock-GuardrailVersion" gver
    (set_if_truthy "X-Amzn-Bedrock-GuardrailIdentifier" gid base) !! k
  = if decide (k = "X-Amzn-Bedrock-GuardrailVersion")
    then (if Text.opt_truthy gver then gver
          else base !! "X-Amzn-Bedrock-GuardrailVersion")
    else if decide (k = "X-Amzn-Bedrock-GuardrailIdentifier")
    then (if Text.opt_truthy gid then gid
          else base !! "X-Amzn-Bedrock-GuardrailIdentifier")
    else base !! k.
Proof.
  rewrite !set_if_truthy_lookup.
  destruct (decide (k = "X-Amzn-Bedrock-GuardrailVersion")) as [->|Hv].
  - rewrite decide_False by discriminate. done.
  - by destruct (decide (k = "X-Amzn-Bedrock-GuardrailIdentifier")) as [->|Hi].
Qed.

(** X8. With a bearer token set and not empty, the request the direct
    invoker posts carries [Authorization: Bearer <token>], the JSON content
    type and accept headers, each guardrail header exactly when the
    corresponding argument is given and not empty, and no other header. *)
Theorem X8_bearer_request_headers msg mid gid gver w tok req :
  environ w !! "AWS_BEARER_TOKEN_BEDROCK" = Some tok → tok ≠ "" →
  req ∈ posted (trace (snd (invoke_bedrock_direct msg mid gid gver w st0))) →
  req_headers req !! "Authorization" = Some ("Bearer " +:+ tok)
  ∧ req_headers req !! "Content-Type" = Some "application/json"
  ∧ req_headers req !! "Accept" = Some "application/json"
  ∧ req_headers req !! "X-Amzn-Bedrock-GuardrailIdentifier"
    = (if Text.opt_truthy gid then gid else None)
  ∧ req_headers req !! "X-Amzn-Bedrock-GuardrailVersion"
    = (if Text.opt_truthy gver then gver else None)
  ∧ (∀ k, k ∉ [ "Authorization"; "Content-Type"; "Accept";
                "X-Amzn-Bedrock-GuardrailIdentifier";
                "X-Amzn-Bedrock-GuardrailVersion" ] →
          req_headers req !! k = None).
Proof.
  intros Htok Hne Hin.
  destruct (direct_shape msg mid gid gver w st0)
    as [(exc & Hrun & _)|(hdrs & st1 & Hauth & _ & Hposted & _)].
  { rewrite Hrun in Hin. by apply elem_of_nil in Hin. }
  rewrite Hposted in Hin. cbn [st0 trace posted app] in Hin.
  apply list_elem_of_singleton in Hin as ->. cbn [req_headers].
  destruct (auth_stage_cases (default "us-east-1" (environ w !! "AWS_REGION"))
              mid (build_invoke_body msg) gid gver w st0)
    as [(tok' & Htok' & _ & Hb)|[Hb _]].
  2: { rewrite Htok in Hb. by destruct tok. }
  rewrite Htok in Htok'. injection Htok' as <-.
  rewrite Hauth in Hb. injection Hb as -> _.
  repeat split.
  - rewrite guardrail_headers_lookup, !decide_False by discriminate.
    by rewrite lookup_insert_eq.
  - rewrite guardrail_headers_lookup, !decide_False by discriminate.
    by rewrite !lookup_insert_ne, lookup_insert_eq by discriminate.
  - rewrite guardrail_headers_lookup, !decide_False by discriminate.
    by rewrite lookup_insert_ne, lookup_insert_eq by discriminate.
  - rewrite guardrail_headers_lookup, decide_False, decide_True
      by (done || discriminate).
    destruct (Text.opt_truthy gid); [done|].
    by rewrite !lookup_insert_ne, lookup_empty by discriminate.
  - rewrite guardrail_headers_lookup, decide_True by done.
    destruct (Text.opt_truthy gver); [done|].
    by rewrite !lookup_insert_ne, lookup_empty by discriminate.
  - intros k Hk. rewrite guardrail_headers_lookup.
    rewrite !decide_False
      by (intros ->; apply Hk; repeat constructor).
    rewrite !lookup_insert_ne
      by (intros <-; apply Hk; repeat constructor).
    apply lookup_empty.
Qed.

(** X9. Whatever either invoker signs is the Bedrock request, on the
    gateway path too: a [POST] to the model endpoint of the region, over the
    JSON bytes of the Llama body, for the service [bedrock], with the access
    key, the secret key and the optional session token of the environment;
    its headers are the JSON content type and accept headers and each
    guardrail header exactly when the argument is given and not empty. *)
Theorem X9_signed_request msg mid gid gver w creds service region r :
  EvSign creds service region r
    ∈ trace (snd (invoke_bedrock_direct msg mid gid gver w st0))
  ∨ EvSign creds service region r
      ∈ trace (snd (invoke_via_proxy msg mid gid gver w st0)) →
  service = "bedrock"
  ∧ region = default "us-east-1" (environ w !! "AWS_REGION")
  ∧ environ w !! "AWS_ACCESS_KEY_ID" = Some (cred_access_key creds)
  ∧ environ w !! "AWS_SECRET_ACCESS_KEY" = Some (cred_secret_key creds)
  ∧ cred_token creds = environ w !! "AWS_SESSION_TOKEN"
  ∧ aws_method r = "POST"
  ∧ aws_url r = get_bedrock_endpoint region mid
  ∧ aws_data r = json_dumps_utf8 (build_invoke_body msg)
  ∧ aws_headers r !! "Content-Type" = Some "application/json"
  ∧ aws_headers r !! "Accept" = Some "application/json"
  ∧ aws_headers r !! "X-Amzn-Bedrock-GuardrailIdentifier"
    = (if Text.opt_truthy gid then gid else None)
  ∧ aws_headers r !! "X-Amzn-Bedrock-GuardrailVersion"
    = (if Text.opt_truthy gver then gver else None)
  ∧ (∀ k, k ∉ [ "Content-Type"; "Accept";
                "X-Amzn-Bedrock-GuardrailIdentifier";
                "X-Amzn-Bedrock-GuardrailVersion" ] →
          aws_headers r !! k = None).
Proof.
  set (reg := default "us-east-1" (environ w !! "AWS_REGION")).
  set (body := build_invoke_body msg).
  intros Hin.
  assert (Hsig : ∃ hdrs st1,
            auth_headers_and_body reg mid body gid gver w st0
            = (Returned (hdrs, json_dumps_utf8 body), st1)
            ∧ EvSign creds service region r ∈ trace st1).
  { destruct Hin as [Hin|Hin].
    - destruct (direct_shape msg mid gid gver w st0)
        as [(exc & Hrun & _)|(hdrs & st1 & Hauth & Htr & _)].
      { rewrite Hrun in Hin. by apply elem_of_nil in Hin. }
      rewrite Htr in Hin. apply elem_of_app in Hin as [Hin|Hin].
      + by exists hdrs, st1.
      + by apply list_elem_of_singleton in Hin.
    - destruct (proxy_shape msg mid gid gver w st0)
        as [[Hrun _]|[[Hrun _]|[(exc & Hrun & _)
           |(api_key & dc_id & auth & st1 & _ & _ & Hauth & Htr & _)]]];
        try (rewrite Hrun in Hin; by apply elem_of_nil in Hin).
      rewrite Htr in Hin. apply elem_of_app in Hin as [Hin|Hin].
      + by exists auth, st1.
      + by apply list_elem_of_singleton in Hin. }
  destruct Hsig as (hdrs & st1 & Hauth & Hev).
  destruct (auth_stage_cases reg mid body gid gver w st0)
    as [(tok & _ & _ & Hb)|[_ Hs]].
  { rewrite Hauth in Hb. injection Hb as _ ->. by apply elem_of_nil in Hev. }
  rewrite Hauth, sign_bedrock_request_eq in Hs.
  destruct (environ w !! "AWS_ACCESS_KEY_ID") as [ak|]; [|done].
  destruct (environ w !! "AWS_SECRET_ACCESS_KEY") as [sk|]; [|done].
  cbv beta iota zeta in Hs. injection Hs as _ ->.
  cbn [st0 trace app] in Hev. apply list_elem_of_singleton in Hev.
  injection Hev as -> -> -> ->.
  cbn [cred_access_key cred_secret_key cred_token aws_method aws_url aws_data
       aws_headers].
  do 8 (split; [done|]).
  repeat split.
  - rewrite guardrail_headers_lookup, !decide_False by discriminate.
    by rewrite lookup_insert_ne, lookup_insert_eq by discriminate.
  - rewrite guardrail_headers_lookup, !decide_False by discriminate.
    by rewrite lookup_insert_eq.
  - rewrite guardrail_headers_lookup, decide_False, decide_True
      by (done || discriminate).
    destruct (Text.opt_truthy gid); [done|].
    by rewrite !lookup_insert_ne, lookup_empty by discriminate.
  - rewrite guardrail_headers_lookup, decide_True by done.
    destruct (Text.opt_truthy gver); [done|].
    by rewrite !lookup_insert_ne, lookup_empty by discriminate.
  - intros k Hk. rewrite guardrail_headers_lookup.
    rewrite !decide_False
      by (intros ->; apply Hk; repeat constructor).
    rewrite !lookup_insert_ne
      by (intros <-; apply Hk; repeat constructor).
    apply lookup_empty.
Qed.

(** ** What an invocation can raise *)

Lemma classify_direct_raises mid resp e w st exc :
  fst (classify_direct mid resp e w st) = Raised exc →
  status_code resp = 200
  ∧ (exc = JSONDecodeError ∨ exc = AttributeError ∨ exc = ValidationError).
Proof.
  unfold classify_direct, bind, ret, lift, try_except.
  unfold resp_json, dict_get, ChatResponse_new.
  destruct (status_code resp =? 400) eqn:H4.
  - destruct (json resp) as [[| | | | |items]|]; cbn; by intros [=].
  - destruct (status_code resp =? 200) eqn:H2; cbn [negb];
      [|cbn; by intros [=]].
    apply Z.eqb_eq in H2. intros Hexc. split; [done|]. revert Hexc.
    destruct (json resp) as [[| | | | |items]|]; cbn;
      try (intros [= <-]; by auto).
    destruct (bool_decide _); cbn; [by intros [=]|].
    destruct (default _ _); cbn; intros [=]; subst; by auto.
Qed.

Lemma classify_proxy_raises mid resp e w st exc :
  fst (classify_proxy mid resp e w st) = Raised exc →
  (exc = ValueError ∧ validation_header_ok resp = false)
  ∨ (status_code resp = 200 ∧ gateway_block_header resp = false
     ∧ (exc = JSONDecodeError ∨ exc = AttributeError ∨ exc = ValidationError)).
Proof.
  rewrite <- acvps_blocks_spec.
  unfold classify_proxy, validation_header_ok, bind, ret, lift, try_except.
  unfold resp_json, dict_get, ChatResponse_new, py_float.
  destruct (headers_get _ "X-ACVPS-Validation-Ms") as [raw|];
    [destruct (Text.truthy raw); [destruct (float_accepts raw)|]|];
    cbv beta iota; try (intros [= <-]; by left).
  all: destruct (acvps_blocks _);
    [destruct (json resp) as [[| | | | |items]|]; cbn; by intros [=]|].
  all: destruct (status_code resp =? 400);
    [destruct (json resp) as [[| | | | |items]|]; cbn; by intros [=]|].
  all: destruct (status_code resp =? 200) eqn:H2; cbn [negb];
    [|cbn; by intros [=]].
  all: apply Z.eqb_eq in H2; intros Hexc; right; do 2 (split; [done|]);
    revert Hexc.
  all: destruct (json resp) as [[| | | | |items]|]; cbn;
    try (intros [= <-]; by auto).
  all: destruct (bool_decide _); cbn; [by intros [=]|].
  all: destruct (default _ _); cbn; intros [=]; subst; by auto.
Qed.

(** The auth stage raises exactly when a credential it needs is missing,
    and names the first one. *)
Lemma auth_stage_missing region mid body gid gver w st :
  match fst (auth_headers_and_body region mid body gid gver w st) with
  | Raised exc =>
      ∃ k, exc = KeyError k
           ∧ first_missing w (required_settings false w) = Some k
  | Returned _ => first_missing w (required_settings false w) = None
  end.
Proof.
  rewrite auth_headers_and_body_eq. unfold required_settings, first_missing.
  destruct (Text.opt_truthy (environ w !! "AWS_BEARER_TOKEN_BEDROCK")) eqn:Hb.
  - apply opt_truthy_Some in Hb as (tok & Htok & _).
    by rewrite build_bearer_headers_eq, Htok.
  - rewrite sign_bedrock_request_eq. cbn [app find].
    destruct (environ w !! "AWS_ACCESS_KEY_ID") as [ak|] eqn:Hak.
    + rewrite bool_decide_false by done.
      destruct (environ w !! "AWS_SECRET_ACCESS_KEY") as [sk|] eqn:Hsk.
      * by rewrite bool_decide_false.
      * rewrite bool_decide_true by done. by eexists.
    + rewrite bool_decide_true by done. by eexists.
Qed.

Lemma first_missing_gateway w :
  first_missing w (required_settings true w)
  = match environ w !! "ETHICALZEN_API_KEY" with
    | None => Some "ETHICALZEN_API_KEY"
    | Some _ =>
        match environ w !! "ETHICALZEN_DC_ID" with
        | None => Some "ETHICALZEN_DC_ID"
        | Some _ => first_missing w (required_settings false w)
        end
    end.
Proof.
  unfold first_missing, required_settings. cbn [app find].
  destruct (environ w !! "ETHICALZEN_API_KEY");
    [rewrite bool_decide_false by done|by rewrite bool_decide_true].
  destruct (environ w !! "ETHICALZEN_DC_ID");
    [by rewrite bool_decide_false|by rewrite bool_decide_true].
Qed.

(** The direct invoker raises [KeyError] exactly for the first missing
    credential, before anything is done. *)
Lemma direct_missing msg mid gid gver w st k :
  let run := invoke_bedrock_direct msg mid gid gver w st in
  (fst run = Raised (KeyError k)
   → first_missing w (required_settings false w) = Some k)
  ∧ (first_missing w (required_settings false w) = Some k
     → run = (Raised (KeyError k), st)).
Proof.
  cbv zeta.
  set (region := default "us-east-1" (environ w !! "AWS_REGION")).
  set (body := build_invoke_body msg).
  pose proof (auth_stage_missing region mid body gid gver w st) as Hauth.
  destruct (direct_shape msg mid gid gver w st)
    as [(exc & Hrun & Hexc)|(hdrs & st1 & Hret & _ & _ & _ & Hnet)].
  - fold region body in Hexc. rewrite Hexc in Hauth.
    destruct Hauth as (k' & -> & Hk'). rewrite Hrun, Hk'. cbn [fst].
    split; intros [= ->]; done.
  - fold region body in Hret. rewrite Hret in Hauth. cbn [fst] in Hauth.
    rewrite Hauth. split; [|done]. intros Hk.
    destruct (network w _) as [resp| |]; [|by rewrite Hk in Hnet..].
    destruct Hnet as [Hnet _]. rewrite Hk in Hnet. symmetry in Hnet.
    apply classify_direct_raises in Hnet as (_ & [|[|]]); done.
Qed.

(** The gateway invoker likewise, its own two settings first. *)
Lemma proxy_missing msg mid gid gver w st k :
  let run := invoke_via_proxy msg mid gid gver w st in
  (fst run = Raised (KeyError k)
   → first_missing w (required_settings true w) = Some k)
  ∧ (first_missing w (required_settings true w) = Some k
     → run = (Raised (KeyError k), st)).
Proof.
  cbv zeta.
  set (region := default "us-east-1" (environ w !! "AWS_REGION")).
  set (body := build_invoke_body msg).
  pose proof (auth_stage_missing region mid body gid gver w st) as Hauth.
  rewrite first_missing_gateway.
  destruct (proxy_shape msg mid gid gver w st)
    as [[Hrun Ha]|[(Hrun & Ha & Hd)|[(exc & Hrun & Ha & Hd & Hexc)
       |(api_key & dc_id & auth & st1 & Ha & Hd & Hret & _ & _ & _ & Hnet)]]].
  - rewrite Hrun, Ha. cbn [fst]. split; intros [= ->]; done.
  - rewrite Hrun, Hd. destruct (environ w !! "ETHICALZEN_API_KEY"); [|done].
    cbn [fst]. split; intros [= ->]; done.
  - destruct (environ w !! "ETHICALZEN_API_KEY"); [|done].
    destruct (environ w !! "ETHICALZEN_DC_ID"); [|done].
    fold region body in Hexc. rewrite Hexc in Hauth.
    destruct Hauth as (k' & -> & Hk'). rewrite Hrun, Hk'. cbn [fst].
    split; intros [= ->]; done.
  - rewrite Ha, Hd.
    fold region body in Hret. rewrite Hret in Hauth. cbn [fst] in Hauth.
    rewrite Hauth. split; [|done]. intros Hk.
    destruct (network w _) as [resp| |]; [|by rewrite Hk in Hnet..].
    destruct Hnet as [Hnet _]. rewrite Hk in Hnet. symmetry in Hnet.
    apply classify_proxy_raises in Hnet as [[? _]|(_ & _ & [|[|]])]; done.
Qed.

(** X10. An invocation raises [KeyError] exactly when a setting it cannot
    do without is missing from the environment; the error names the first
    one in the order the settings are read (on the gateway path the API key
    and the contract id come before any credential), and nothing has been
    signed or posted. *)
Theorem X10_missing_setting msg mid gid gver w st k :
  let names (run : Outcome ChatResponse * St) (gateway : bool) :=
    (fst run = Raised (KeyError k)
     → first_missing w (required_settings gateway w) = Some k)
    ∧ (first_missing w (required_settings gateway w) = Some k
       → run = (Raised (KeyError k), st)) in
  names (invoke_bedrock_direct msg mid gid gver w st) false
  ∧ names (invoke_via_proxy msg mid gid gver w st) true.
Proof.
  split; [apply direct_missing|apply proxy_missing].
Qed.


(** ** The [/chat] handler *)

Lemma chat_invoker request w st :
  chat request w st
  = match invoker (mode request) (message request) (model_id request)
            (guardrail_identifier request) (guardrail_version request) w st with
    | (Raised (KeyError k), st') =>
        (HTTPException 500 (MissingEnvironmentVariable (KeyError k)), st')
    | (Raised exc, st') => (HTTPException 500 (ExceptionText exc), st')
    | (Returned r, st') =>
        (ChatOk r,
         log_event r (guardrail_identifier request) (guardrail_version request)
           st')
    end.
Proof. unfold chat, invoker. by destruct (mode request). Qed.

(** A run of either invoker: no log entry is written; a missing setting
    stops it with nothing done, and otherwise exactly one request is
    posted and the run does not end in [KeyError]; a verdict names the mode
    and the model. *)
Lemma invoker_shape m msg mid gid gver w st :
  let run := invoker m msg mid gid gver w st in
  List.filter is_log (trace (snd run)) = List.filter is_log (trace st)
  ∧ ((∃ k, run = (Raised (KeyError k), st)
           ∧ first_missing w (required_settings (uses_gateway m) w) = Some k)
     ∨ ((∃ hdrs,
           posted (trace (snd run))
           = posted (trace st)
             ++ [ {| req_url := posted_url w m mid; req_headers := hdrs;
                     req_content := json_dumps_utf8 (build_invoke_body msg);
                     req_timeout := 30 |} ])
        ∧ (∀ k, fst run ≠ Raised (KeyError k))))
  ∧ (∀ v, fst run = Returned v → resp_mode v = m ∧ model v = mid).
Proof.
  intros run. subst run.
  set (region := default "us-east-1" (environ w !! "AWS_REGION")).
  set (body := build_invoke_body msg).
  pose proof (auth_stage_missing region mid body gid gver w st) as Hauth.
  destruct m; unfold invoker, uses_gateway, posted_url.
  - pose proof (direct_missing msg mid gid gver w st) as Hmiss. cbv zeta in Hmiss.
    split; [|split].
    + destruct (direct_shape msg mid gid gver w st)
        as [(exc & Hrun & _)|(hdrs & st1 & _ & _ & _ & Hl & _)];
        [by rewrite Hrun|done].
    + destruct (direct_shape msg mid gid gver w st)
        as [(exc & Hrun & Hexc)|(hdrs & st1 & Hret & _ & Hp & _)].
      * left. fold region body in Hexc. rewrite Hexc in Hauth.
        destruct Hauth as (k & -> & Hk). by exists k.
      * right. split; [by exists hdrs|]. intros k Hk.
        apply Hmiss in Hk. fold region body in Hret.
        rewrite Hret in Hauth. cbn [fst] in Hauth. congruence.
    + intros v Hv. apply direct_verdict_classified in Hv as (resp & e & st' & Hv).
      apply classify_direct_echo in Hv. tauto.
  - pose proof (proxy_missing msg mid gid gver w st) as Hmiss. cbv zeta in Hmiss.
    split; [|split].
    + destruct (proxy_shape msg mid gid gver w st)
        as [[Hrun _]|[[Hrun _]|[(exc & Hrun & _)
           |(api_key & dc_id & auth & st1 & _ & _ & _ & _ & _ & Hl & _)]]];
        try by rewrite Hrun.
      done.
    + destruct (proxy_shape msg mid gid gver w st)
        as [[Hrun Ha]|[(Hrun & Ha & Hd)|[(exc & Hrun & Ha & Hd & Hexc)
           |(api_key & dc_id & auth & st1 & Ha & Hd & Hret & _ & Hp & _)]]].
      * left. eexists. split; [exact Hrun|].
        by rewrite first_missing_gateway, Ha.
      * left. eexists. split; [exact Hrun|].
        rewrite first_missing_gateway, Hd.
        by destruct (environ w !! "ETHICALZEN_API_KEY").
      * left. fold region body in Hexc. rewrite Hexc in Hauth.
        destruct Hauth as (k & -> & Hk). exists k. split; [done|].
        rewrite first_missing_gateway.
        destruct (environ w !! "ETHICALZEN_API_KEY"); [|done].
        by destruct (environ w !! "ETHICALZEN_DC_ID").
      * right. split; [by eexists|]. intros k Hk.
        apply Hmiss in Hk. rewrite first_missing_gateway, Ha, Hd in Hk.
        fold region body in Hret.
        rewrite Hret in Hauth. cbn [fst] in Hauth. congruence.
    + intros v Hv. apply proxy_verdict_classified in Hv as (resp & e & st' & Hv).
      apply classify_proxy_echo in Hv. tauto.
Qed.

(** X13. The [/chat] handler writes one log entry for a verdict, after
    the invocation, with the guardrail of the request, and none when the
    invocation fails; every failure is an HTTP 500. A verdict it returns
    names the mode and the model of the request. *)
Theorem X13_chat_logs_each_verdict_once request w st :
  let res := chat request w st in
  match fst res with
  | ChatOk r =>
      let entry := EvLog r (guardrail_identifier request)
                     (guardrail_version request) in
      list.last (trace (snd res)) = Some entry
      ∧ List.filter is_log (trace (snd res))
        = List.filter is_log (trace st) ++ [entry]
      ∧ resp_mode r = mode request ∧ model r = model_id request
  | HTTPException status _ =>
      status = 500
      ∧ List.filter is_log (trace (snd res)) = List.filter is_log (trace st)
  end.
Proof.
  cbv zeta. rewrite chat_invoker.
  destruct (invoker_shape (mode request) (message request) (model_id request)
              (guardrail_identifier request) (guardrail_version request) w st)
    as (Hlog & _ & Hecho).
  destruct (invoker _ _ _ _ _ w st) as [[r|exc] st'].
  - cbn [fst snd log_event trace] in *.
    rewrite last_snoc, List.filter_app, Hlog. cbn [List.filter is_log].
    split; [done|]. split; [done|]. by apply Hecho.
  - by destruct exc.
Qed.

(** X14. The two details of a [/chat] failure. "Missing required
    environment variable" is reported exactly for the first missing setting
    of the mode, and then nothing was signed or posted; any other failure
    carries the text of an exception that is not a [KeyError], and came
    after the one request was posted. *)
Theorem X14_chat_failure_details request w st status detail :
  let res := chat request w st in
  fst res = HTTPException status detail →
  match detail with
  | MissingEnvironmentVariable exc =>
      snd res = st
      ∧ ∃ k, exc = KeyError k
             ∧ first_missing w
                 (required_settings (uses_gateway (mode request)) w) = Some k
  | ExceptionText exc =>
      (∀ k, exc ≠ KeyError k)
      ∧ ∃ req, posted (trace (snd res)) = posted (trace st) ++ [req]
  end.
Proof.
  cbv zeta. rewrite chat_invoker.
  destruct (invoker_shape (mode request) (message request) (model_id request)
              (guardrail_identifier request) (guardrail_version request) w st)
    as (_ & Hrun & _).
  destruct (invoker _ _ _ _ _ w st) as [[r|exc] st'] eqn:Hinv; [done|].
  cbn [fst snd] in Hrun.
  destruct Hrun as [(k & [= -> ->] & Hk)|[[hdrs Hp] Hnk]].
  - intros [= <- <-]. split; [done|]. by exists k.
  - destruct exc; try (by destruct (Hnk key));
      intros [= <- <-]; cbn [snd]; (split; [done|by eexists]).
Qed.

(** X15. A [/chat] request is sent where its mode says, and nowhere
    else: in [direct] mode to the model endpoint of the region, in [mode-a]
    to the gateway's [/api/proxy]; its content is the JSON of the Llama body
    for the message and its timeout 30 seconds. *)
Theorem X15_chat_routes_by_mode request w req :
  req ∈ posted (trace (snd (chat request w st0))) →
  req_url req = posted_url w (mode request) (model_id request)
  ∧ req_content req = json_dumps_utf8 (build_invoke_body (message request))
  ∧ req_timeout req = 30.
Proof.
  rewrite chat_invoker.
  destruct (invoker_shape (mode request) (message request) (model_id request)
              (guardrail_identifier request) (guardrail_version request) w st0)
    as (_ & Hrun & _).
  destruct (invoker _ _ _ _ _ w st0) as [[r|exc] st'] eqn:Hinv.
  - cbn [fst snd log_event trace] in *. rewrite posted_log.
    destruct Hrun as [(k & [=] & _)|[[hdrs Hp] _]].
    rewrite Hp. cbn [st0 trace posted app].
    by intros ->%list_elem_of_singleton.
  - assert (Hsnd : ∀ res : ChatResult * St,
              res = (match exc with
                     | KeyError k =>
                         (HTTPException 500
                            (MissingEnvironmentVariable (KeyError k)), st')
                     | _ => (HTTPException 500 (ExceptionText exc), st')
                     end) → snd res = st') by (intros ? ->; by destruct exc).
    rewrite (Hsnd _ eq_refl). cbn [fst snd] in Hrun.
    destruct Hrun as [(k & [= -> ->] & _)|[[hdrs Hp] _]].
    + cbn [st0 trace posted]. by intros ?%elem_of_nil.
    + rewrite Hp. cbn [st0 trace posted app].
      by intros ->%list_elem_of_singleton.
Qed.

(** ** The event log *)

Lemma classify_direct_label mid resp e w st v :
  fst (classify_direct mid resp e w st) = Returned v →
  blocked_by v ≠ ETHICALZEN_GUARDRAIL
  ∧ (blocked_by v = BEDROCK_GUARDRAIL →
     ∃ m, response v = "[BLOCKED by Bedrock Guardrail] " +:+ m).
Proof.
  unfold classify_direct, bind, ret, lift, try_except.
  unfold resp_json, dict_get, ChatResponse_new.
  destruct (status_code resp =? 400).
  - destruct (json resp) as [[| | | | |items]|]; cbn; intros [= <-]; cbn;
      (split; [done|]); intros _; by eexists.
  - destruct (negb (status_code resp =? 200)); [cbn; by intros [= <-]|].
    destruct (json resp) as [[| | | | |items]|]; cbn; try done.
    destruct (bool_decide _); cbn.
    + intros [= <-]; cbn. split; [done|]. intros _. by eexists.
    + destruct (default _ _); cbn; try done. by intros [= <-].
Qed.

Lemma classify_proxy_label mid resp e w st v :
  fst (classify_proxy mid resp e w st) = Returned v →
  (blocked_by v = BEDROCK_GUARDRAIL →
   ∃ m, response v = "[BLOCKED by Bedrock Guardrail] " +:+ m)
  ∧ (blocked_by v = ETHICALZEN_GUARDRAIL →
     ∃ m, response v = "[BLOCKED by EthicalZen] " +:+ m).
Proof.
  unfold classify_proxy, bind, ret, lift, try_except.
  unfold resp_json, dict_get, ChatResponse_new, py_float.
  destruct (headers_get _ "X-ACVPS-Validation-Ms") as [raw|];
    [destruct (Text.truthy raw); [destruct (float_accepts raw)|]|];
    cbv beta iota; try done.
  all: destruct (acvps_blocks _);
    [destruct (json resp) as [[| | | | |items]|]; cbn; intros [= <-]; cbn;
     (split; [done|]); intros _; by eexists|].
  all: destruct (status_code resp =? 400);
    [destruct (json resp) as [[| | | | |items]|]; cbn; intros [= <-]; cbn;
     (split; [|done]); intros _; by eexists|].
  all: destruct (negb (status_code resp =? 200)); [cbn; by intros [= <-]|].
  all: destruct (json resp) as [[| | | | |items]|]; cbn; try done.
  all: destruct (bool_decide _); cbn;
    [intros [= <-]; cbn; (split; [|done]); intros _; by eexists|].
  all: destruct (default _ _); cbn; try done; by intros [= <-].
Qed.

(** X16. The text of a blocked verdict starts with the label of the layer
    the block is attributed to: [[BLOCKED by Bedrock Guardrail]] for the
    first-layer guardrail, [[BLOCKED by EthicalZen]] for the gateway; and the
    direct invoker never attributes a block to the gateway. *)
Theorem X16_blocked_text_names_the_layer msg mid gid gver w st v :
  (fst (invoke_bedrock_direct msg mid gid gver w st) = Returned v →
   blocked_by v ≠ ETHICALZEN_GUARDRAIL
   ∧ (blocked_by v = BEDROCK_GUARDRAIL →
      ∃ m, response v = "[BLOCKED by Bedrock Guardrail] " +:+ m))
  ∧ (fst (invoke_via_proxy msg mid gid gver w st) = Returned v →
     (blocked_by v = BEDROCK_GUARDRAIL →
      ∃ m, response v = "[BLOCKED by Bedrock Guardrail] " +:+ m)
     ∧ (blocked_by v = ETHICALZEN_GUARDRAIL →
        ∃ m, response v = "[BLOCKED by EthicalZen] " +:+ m)).
Proof.
  split; intros Hv.
  - apply direct_verdict_classified in Hv as (resp & e & st' & Hv).
    by apply classify_direct_label in Hv.
  - apply proxy_verdict_classified in Hv as (resp & e & st' & Hv).
    by apply classify_proxy_label in Hv.
Qed.

(** X17. The record [log_event] writes for a verdict of [/chat]: its mode
    is the value of the request's mode and its model the request's model;
    [blocked] holds exactly when [blocked_by] is not [none]; and in
    [direct] mode it never names the gateway: no gateway attribution, trace
    id, gateway status or validation duration. *)
Theorem X17_event_log_record request w st r timestamp :
  fst (chat request w st) = ChatOk r →
  let event := log_event_record r (guardrail_identifier request)
                 (guardrail_version request) timestamp in
  ev_mode event = ChatMode_value (mode request)
  ∧ ev_model event = model_id request
  ∧ (ev_blocked event = true ↔ ev_blocked_by event ≠ "none")
  ∧ (mode request = DIRECT →
     ev_blocked_by event ≠ "ethicalzen_guardrail"
     ∧ ev_trace_id event = None ∧ ev_ethicalzen_status event = None
     ∧ ev_validation_ms event = None).
Proof.
  rewrite chat_invoker.
  destruct (invoker _ _ _ _ _ w st) as [[r'|exc] st'] eqn:Hinv;
    [|by destruct exc].
  intros [= ->]. apply (f_equal fst) in Hinv. cbn [fst] in Hinv.
  unfold log_event_record.
  cbn [ev_mode ev_model ev_blocked ev_blocked_by ev_trace_id
       ev_ethicalzen_status ev_validation_ms].
  unfold invoker in Hinv. destruct (mode request).
  - apply direct_verdict_classified in Hinv as (resp & e & st1 & Hv).
    pose proof (classify_direct_echo _ _ _ _ _ _ Hv) as (-> & -> & _).
    apply classify_direct_verdict in Hv
      as (-> & -> & -> & [[-> ->]|[-> ->]]); cbn; by repeat split.
  - apply proxy_verdict_classified in Hinv as (resp & e & st1 & Hv).
    pose proof (classify_proxy_echo _ _ _ _ _ _ Hv) as (-> & -> & _).
    apply classify_proxy_verdict in Hv
      as [[-> ->]|[[-> ->]|[-> ->]]]; cbn; by repeat split.
Qed.

(** ** The gateway's URL *)

Lemma rstrip_char_snoc c s :
  Text.rstrip_char c (s +:+ String c EmptyString) = Text.rstrip_char c s.
Proof.
  induction s as [|a s IH]; simpl.
  - by rewrite Ascii.eqb_refl.
  - by rewrite IH.
Qed.

Lemma rstrip_char_idemp c s :
  Text.rstrip_char c (Text.rstrip_char c s) = Text.rstrip_char c s.
Proof.
  induction s as [|a s IH]; [done|]. simpl.
  destruct (Text.rstrip_char c s) as [|b r] eqn:Hr.
  - destruct (Ascii.eqb a c) eqn:Hac; [done|]. simpl. by rewrite Hac.
  - remember (String b r) as t eqn:Ht. simpl. rewrite IH. by subst t.
Qed.

Lemma rstrip_char_suffix c s :
  ∃ n, s = Text.rstrip_char c s +:+ string_of_list_ascii (repeat c n).
Proof.
  induction s as [|a s [n IH]]; [by exists 0%nat|].
  simpl.
  destruct (Text.rstrip_char c s) as [|b r] eqn:Hr.
  - change (s = string_of_list_ascii (repeat c n)) in IH.
    destruct (Ascii.eqb a c) eqn:Hac.
    + apply Ascii.eqb_eq in Hac as ->. exists (S n).
      change (String c s = String c (string_of_list_ascii (repeat c n))).
      by f_equal.
    + exists n.
      change (String a s = String a (string_of_list_ascii (repeat c n))).
      by f_equal.
  - exists n.
    change (String a s
            = String a (String b r +:+ string_of_list_ascii (repeat c n))).
    by f_equal.
Qed.

Lemma rstrip_char_length c s :
  (String.length (Text.rstrip_char c s) ≤ String.length s)%nat.
Proof.
  induction s as [|a s IH]; [done|]. simpl.
  destruct (Text.rstrip_char c s) as [|b r].
  - destruct (Ascii.eqb a c); simpl; lia.
  - simpl in *. lia.
Qed.

Lemma length_snoc s c :
  String.length (s +:+ String c EmptyString) = S (String.length s).
Proof. induction s as [|a s IH]; simpl; [done|]. by rewrite IH. Qed.

(** What [rstrip] leaves does not end in the character. *)
Lemma rstrip_char_no_trailing c s b :
  Text.rstrip_char c s ≠ b +:+ String c EmptyString.
Proof.
  intros Hb. pose proof (rstrip_char_idemp c s) as Hi.
  rewrite Hb, rstrip_char_snoc in Hi.
  pose proof (rstrip_char_length c b) as Hl.
  rewrite Hi, length_snoc in Hl. lia.
Qed.

(** X18. The gateway URL is the configured base, the default when none is
    set, without its trailing slashes, followed by [/api/proxy]: what is cut
    off the base is slashes only, and what is left does not end in a
    slash. *)
Theorem X18_proxy_url_strips_trailing_slashes w st :
  let configured := default "https://gateway.ethicalzen.ai"
                      (environ w !! "ETHICALZEN_PROXY_URL") in
  ∃ base n,
    _get_proxy_url w st = (Returned (base +:+ "/api/proxy"), st)
    ∧ configured = base +:+ string_of_list_ascii (repeat "/"%char n)
    ∧ (∀ b, base ≠ b +:+ "/").
Proof.
  intros configured.
  destruct (rstrip_char_suffix "/" configured) as [n Hn].
  exists (Text.rstrip_char "/" configured), n.
  split; [unfold _get_proxy_url; by repeat run_cbn|].
  split; [done|]. intros b. apply rstrip_char_no_trailing.
Qed.

(** ** The decision table *)

Lemma classify_direct_decision mid resp e w st v :
  fst (classify_direct mid resp e w st) = Returned v →
  blocked v = true
  ↔ status_code resp = 400 ∨ (status_code resp = 200 ∧ intervened resp = true).
Proof.
  unfold classify_direct, intervened, bind, ret, lift, try_except.
  unfold resp_json, dict_get, ChatResponse_new.
  destruct (status_code resp =? 400) eqn:H4;
    [apply Z.eqb_eq in H4|apply Z.eqb_neq in H4].
  - destruct (json resp) as [[| | | | |items]|]; cbn; intros [= <-]; cbn;
      intuition congruence.
  - destruct (status_code resp =? 200) eqn:H2; cbn [negb];
      [apply Z.eqb_eq in H2|apply Z.eqb_neq in H2].
    + destruct (json resp) as [[| | | | |items]|]; cbn; try done.
      destruct (bool_decide _); cbn.
      * intros [= <-]; cbn. intuition congruence.
      * destruct (default _ _); cbn; try done. intros [= <-]; cbn.
        intuition congruence.
    + cbn. intros [= <-]; cbn. intuition congruence.
Qed.

Lemma classify_proxy_decision mid resp e w st v :
  fst (classify_proxy mid resp e w st) = Returned v →
  (blocked_by v = ETHICALZEN_GUARDRAIL ↔ gateway_block_header resp = true)
  ∧ (blocked_by v = BEDROCK_GUARDRAIL
     ↔ gateway_block_header resp = false
       ∧ (status_code resp = 400
          ∨ (status_code resp = 200 ∧ intervened resp = true))).
Proof.
  rewrite <- acvps_blocks_spec.
  unfold classify_proxy, intervened, bind, ret, lift, try_except.
  unfold resp_json, dict_get, ChatResponse_new, py_float.
  destruct (headers_get _ "X-ACVPS-Validation-Ms") as [raw|];
    [destruct (Text.truthy raw); [destruct (float_accepts raw)|]|];
    cbv beta iota; try done.
  all: destruct (acvps_blocks _);
    [destruct (json resp) as [[| | | | |items]|]; cbn; intros [= <-]; cbn;
     intuition congruence|].
  all: destruct (status_code resp =? 400) eqn:H4;
    [apply Z.eqb_eq in H4|apply Z.eqb_neq in H4];
    [destruct (json resp) as [[| | | | |items]|]; cbn; intros [= <-]; cbn;
     intuition congruence|].
  all: destruct (status_code resp =? 200) eqn:H2; cbn [negb];
    [apply Z.eqb_eq in H2|apply Z.eqb_neq in H2];
    [|cbn; intros [= <-]; cbn; intuition congruence].
  all: destruct (json resp) as [[| | | | |items]|]; cbn; try done.
  all: destruct (bool_decide _); cbn;
    [intros [= <-]; cbn; intuition congruence|].
  all: destruct (default _ _); cbn; try done; intros [= <-]; cbn;
    intuition congruence.
Qed.

(** X19. Which answers give a blocked verdict. On the direct path a
    verdict is blocked exactly when the status is 400, or it is 200 and the
    guardrail-action header is [INTERVENED]. On the gateway path a verdict
    is attributed to the gateway exactly when the gateway-status header
    names a block, and to the first-layer guardrail exactly when it does not
    and the direct condition holds. *)
Theorem X19_which_answers_block msg mid gid gver w resp v :
  let first_layer :=
    status_code resp = 400
    ∨ (status_code resp = 200 ∧ intervened resp = true) in
  (let run := invoke_bedrock_direct msg mid gid gver w st0 in
   answered w (snd run) resp → fst run = Returned v →
   (blocked v = true ↔ first_layer))
  ∧ (let run := invoke_via_proxy msg mid gid gver w st0 in
     answered w (snd run) resp → fst run = Returned v →
     (blocked_by v = ETHICALZEN_GUARDRAIL ↔ gateway_block_header resp = true)
     ∧ (blocked_by v = BEDROCK_GUARDRAIL
        ↔ gateway_block_header resp = false ∧ first_layer)).
Proof.
  intros first_layer. subst first_layer. split; intros run Hans Hv.
  - apply direct_answered in Hans as [e He]. fold run in He.
    rewrite Hv in He. symmetry in He.
    by apply classify_direct_decision in He.
  - apply proxy_answered in Hans as [e He]. fold run in He.
    rewrite Hv in He. symmetry in He.
    by apply classify_proxy_decision in He.
Qed.

End Properties.

(** * The claims at sample inputs *)

Lemma C1_witness :
  ∃ v, fst (invoke_via_proxy (H:=sample_libs) sample_message sample_model
              None None
              (world_with bearer_env (Responded resp_gateway_block)) st0)
       = Returned v
       ∧ (blocked v = true ↔ blocked_by v ≠ NONE).
Proof.
  eexists. split; [vm_compute; reflexivity|].
  apply (proj1 (C1_blocked_iff_attributed (H:=sample_libs) sample_message
                  sample_model None None
                  (world_with bearer_env (Responded resp_gateway_block))
                  st0 _)).
  right. vm_compute. reflexivity.
Defined.

Lemma X20_witness :
  ∃ v, fst (invoke_via_proxy (H:=sample_libs) sample_message sample_model
              None None
              (world_with bearer_env (Responded resp_gateway_block)) st0)
       = Returned v
       ∧ blocked v = true ∧ blocked_by v = ETHICALZEN_GUARDRAIL
       ∧ response v = "[BLOCKED by EthicalZen] prompt injection detected".
Proof.
  destruct (X20_gateway_block_first (H:=sample_libs) sample_message
              sample_model None None
              (world_with bearer_env (Responded resp_gateway_block))
              resp_gateway_block) as (v & Hv & Hb & Hby & _ & Hr).
  - vm_compute. reflexivity.
  - reflexivity.
  - reflexivity.
  - exists v. repeat split; assumption.
Defined.

(** C2 at a failing input: the gateway names a block and the
    validation-duration header reads [n/a]; [float()] raises [ValueError]
    out of the invoker before the status header is looked at, and no
    verdict comes out. *)
Lemma C2_failing_input :
  answered (world_with bearer_env (Responded resp_gateway_block_no_duration))
    (snd (invoke_via_proxy (H:=sample_libs) sample_message sample_model
            None None
            (world_with bearer_env (Responded resp_gateway_block_no_duration))
            st0))
    resp_gateway_block_no_duration
  ∧ gateway_block_header (H:=sample_libs) resp_gateway_block_no_duration = true
  ∧ fst (invoke_via_proxy (H:=sample_libs) sample_message sample_model
           None None
           (world_with bearer_env (Responded resp_gateway_block_no_duration))
           st0)
    = Raised ValueError.
Proof. repeat split; vm_compute; reflexivity. Qed.

Lemma C3_witness :
  fst (chat (H:=sample_libs)
         {| message := sample_message; mode := MODE_A;
            model_id := sample_model; guardrail_identifier := None;
            guardrail_version := None |}
         (world_with bearer_env TimedOut) st0)
  = HTTPException 500 (ExceptionText TimeoutException).
Proof.
  apply (proj2 (proj2 (C3_transport_failure_raises (H:=sample_libs)
                         sample_message sample_model None None
                         (world_with bearer_env TimedOut) TimeoutException))).
  vm_compute. reflexivity.
Defined.

(** C3 as stated fails: the gateway call times out, and the invoker
    returns no verdict but raises the exception to its caller. *)
Lemma C3_counterexample :
  transport_failure (world_with bearer_env TimedOut)
    (snd (invoke_via_proxy (H:=sample_libs) sample_message sample_model
            None None (world_with bearer_env TimedOut) st0))
  = Some TimeoutException
  ∧ fst (invoke_via_proxy (H:=sample_libs) sample_message sample_model
           None None (world_with bearer_env TimedOut) st0)
    = Raised TimeoutException.
Proof. split; vm_compute; reflexivity. Qed.

Lemma C4_witness :
  ∃ k, invoke_bedrock_direct (H:=sample_libs) sample_message sample_model
         None None (world_with gateway_only_env (Responded resp_pass)) st0
       = (Raised (KeyError k), st0)
       ∧ (k = "AWS_ACCESS_KEY_ID" ∨ k = "AWS_SECRET_ACCESS_KEY").
Proof.
  destruct (C4_credential_strategy (H:=sample_libs) sample_message
              sample_model None None
              (world_with gateway_only_env (Responded resp_pass)) st0)
    as (_ & _ & _ & Hmissing).
  apply Hmissing.
  - reflexivity.
  - left. reflexivity.
Defined.

Lemma C5_witness :
  ∃ v, fst (invoke_bedrock_direct (H:=sample_libs) sample_message
              sample_model None None
              (world_with bearer_env (Responded resp_refused)) st0)
       = Returned v
       ∧ blocked v = true ∧ blocked_by v = BEDROCK_GUARDRAIL
       ∧ response v = "[BLOCKED by Bedrock Guardrail] violates usage policy".
Proof.
  destruct (C5_direct_400_blocked (H:=sample_libs) sample_message sample_model
              None None (world_with bearer_env (Responded resp_refused))
              resp_refused) as (v & Hv & Hb & Hby & Hr & _).
  - vm_compute. reflexivity.
  - reflexivity.
  - exists v. repeat split; assumption.
Defined.

Lemma X21_witness :
  ∃ v, fst (invoke_bedrock_direct (H:=sample_libs) sample_message
              sample_model None None
              (world_with bearer_env (Responded resp_pass)) st0)
       = Returned v
       ∧ blocked v = false ∧ blocked_by v = NONE
       ∧ response v = "Neural networks...".
Proof.
  apply (proj1 (X21_status_200 (H:=sample_libs) sample_message sample_model
                  None None (world_with bearer_env (Responded resp_pass))
                  resp_pass [("generation", PyStr "Neural networks...")]
                  eq_refl eq_refl)).
  - vm_compute. reflexivity.
  - reflexivity.
Defined.

(** C6 at a failing input: status 200 with a body that is not JSON;
    [resp.json()], unguarded on this path, raises [JSONDecodeError] out of
    the invoker, and no verdict comes out. *)
Lemma C6_failing_input :
  answered (world_with bearer_env (Responded resp_unparsable))
    (snd (invoke_bedrock_direct (H:=sample_libs) sample_message sample_model
            None None (world_with bearer_env (Responded resp_unparsable)) st0))
    resp_unparsable
  ∧ status_code resp_unparsable = 200
  ∧ fst (invoke_bedrock_direct (H:=sample_libs) sample_message sample_model
           None None (world_with bearer_env (Responded resp_unparsable)) st0)
    = Raised JSONDecodeError.
Proof. repeat split; vm_compute; reflexivity. Qed.

Lemma X22_witness :
  ∃ v, fst (invoke_via_proxy (H:=sample_libs) sample_message sample_model
              None None
              (world_with bearer_env (Responded resp_unavailable)) st0)
       = Returned v
       ∧ blocked v = false ∧ blocked_by v = NONE
       ∧ response v = "[ERROR] Proxy returned 503: Service Unavailable".
Proof.
  destruct (X22_unexpected_status (H:=sample_libs) sample_message sample_model
              None None (world_with bearer_env (Responded resp_unavailable))
              resp_unavailable) as [_ Hproxy].
  - discriminate.
  - discriminate.
  - destruct Hproxy as (v & Hv & Hb & Hby & Hr).
    + vm_compute. reflexivity.
    + reflexivity.
    + reflexivity.
    + exists v. repeat split; assumption.
Defined.

(** C7 at a failing input, on the gateway path: status 503, no gateway
    block, and the validation-duration header reads [n/a]; [float()] raises
    [ValueError] out of the invoker, and no verdict comes out. *)
Lemma C7_failing_input :
  answered (world_with bearer_env (Responded resp_unavailable_no_duration))
    (snd (invoke_via_proxy (H:=sample_libs) sample_message sample_model
            None None
            (world_with bearer_env (Responded resp_unavailable_no_duration))
            st0))
    resp_unavailable_no_duration
  ∧ status_code resp_unavailable_no_duration = 503
  ∧ gateway_block_header (H:=sample_libs) resp_unavailable_no_duration = false
  ∧ fst (invoke_via_proxy (H:=sample_libs) sample_message sample_model
           None None
           (world_with bearer_env (Responded resp_unavailable_no_duration))
           st0)
    = Raised ValueError.
Proof. repeat split; vm_compute; reflexivity. Qed.

Lemma C8_witness :
  ∃ creds region r req,
    trace (snd (invoke_bedrock_direct (H:=sample_libs) sample_message
                  sample_model (Some "gr-1") (Some "1")
                  (world_with sigv4_env (Responded resp_pass)) st0))
    = [EvSign creds "bedrock" region r; EvPost req]
    ∧ aws_data r = req_content req.
Proof.
  assert (Hsigning :
            Text.opt_truthy
              (environ (world_with sigv4_env (Responded resp_pass))
                 !! "AWS_BEARER_TOKEN_BEDROCK") = false)
    by (vm_compute; reflexivity).
  destruct (C8_signed_bytes_are_sent (H:=sample_libs) sample_message
              sample_model (Some "gr-1") (Some "1")
              (world_with sigv4_env (Responded resp_pass)) Hsigning)
    as (_ & Hdirect & _).
  destruct (posted (trace (snd (invoke_bedrock_direct (H:=sample_libs)
                                  sample_message sample_model
                                  (Some "gr-1") (Some "1")
                                  (world_with sigv4_env (Responded resp_pass))
                                  st0))))
    as [|req rest] eqn:Hposted; [vm_compute in Hposted; discriminate Hposted|].
  destruct (Hdirect req) as (creds & region & r & Htr & Hdata & _).
  - apply list_elem_of_here.
  - exists creds, region, r, req. split; [exact Htr|exact Hdata].
Defined.

Lemma C9_witness :
  ∃ req,
    req ∈ posted (trace (snd (invoke_via_proxy (H:=sample_libs) sample_message
                                sample_model None None
                                (world_with bearer_env (Responded resp_pass))
                                st0)))
    ∧ req_headers req !! "X-API-Key" = Some "ez-key"
    ∧ req_headers req !! "Content-Type" = Some "application/json"
    ∧ req_headers req !! "Authorization" = Some "Bearer ABSK-token"
    ∧ req_headers req !! "X-Amz-Date" = None
    ∧ req_headers req !! "Accept" = None.
Proof.
  destruct (posted (trace (snd (invoke_via_proxy (H:=sample_libs)
                                  sample_message sample_model None None
                                  (world_with bearer_env (Responded resp_pass))
                                  st0))))
    as [|req rest] eqn:Hposted; [vm_compute in Hposted; discriminate Hposted|].
  assert (Hin : req ∈ req :: rest) by apply list_elem_of_here.
  rewrite <- Hposted in Hin.
  destruct (C9_gateway_headers (H:=sample_libs) sample_message sample_model
              None None (world_with bearer_env (Responded resp_pass)) req Hin)
    as (auth & Hauth & Hkey & _ & _ & _ & _ & _ & Hct & Hauthz & Hdate & _
        & _ & _ & _ & Hother).
  change (fst (build_bearer_headers None None
                 (world_with bearer_env (Responded resp_pass)) st0)
          = Returned auth) in Hauth.
  assert (Hheld :
            match fst (build_bearer_headers None None
                         (world_with bearer_env (Responded resp_pass)) st0) with
            | Returned held =>
                held !! "Authorization" = Some "Bearer ABSK-token"
                ∧ held !! "X-Amz-Date" = None
            | Raised _ => False
            end) by (vm_compute; split; reflexivity).
  rewrite Hauth in Hheld. destruct Hheld as [Hbearer Hnodate].
  exists req. split; [apply list_elem_of_here|].
  split; [rewrite Hkey; vm_compute; reflexivity|]. split; [exact Hct|].
  split; [rewrite Hauthz; exact Hbearer|].
  split; [rewrite Hdate; exact Hnodate|].
  apply Hother; intros Hk;
    repeat (apply elem_of_cons in Hk as [Hk|Hk]; [discriminate Hk|]);
    by apply elem_of_nil in Hk.
Defined.

Lemma C10_witness :
  ∃ v, fst (invoke_bedrock_direct (H:=sample_libs) sample_message
              sample_model None None
              (world_with bearer_env (Responded resp_pass)) st0)
       = Returned v
       ∧ trace_id v = None ∧ ethicalzen_status v = None
       ∧ validation_ms v = None.
Proof.
  eexists. split; [vm_compute; reflexivity|].
  apply (C10_direct_no_gateway_fields (H:=sample_libs) sample_message
           sample_model None None
           (world_with bearer_env (Responded resp_pass)) st0).
  vm_compute. reflexivity.
Defined.

(** * The further properties at sample inputs *)


Lemma X1_witness :
  ∃ v, fst (invoke_via_proxy (H:=sample_libs) sample_message sample_model
              None None
              (world_with bearer_env (Responded resp_gateway_block)) st0)
       = Returned v
       ∧ trace_id v = Some "trace-1"
       ∧ ethicalzen_status v = Some "Blocked"
       ∧ validation_ms v = Some (FloatOf "12.5").
Proof.
  eexists. split; [vm_compute; reflexivity|].
  apply (X1_gateway_verdict_carries_headers (H:=sample_libs) sample_message
           sample_model None None
           (world_with bearer_env (Responded resp_gateway_block))
           resp_gateway_block).
  - vm_compute. reflexivity.
  - vm_compute. reflexivity.
Defined.

Lemma X2_witness :
  ∃ v, fst (invoke_bedrock_direct (H:=sample_libs) sample_message sample_model
              None None (world_with bearer_env (Responded resp_pass)) st0)
       = Returned v
       ∧ resp_mode v = DIRECT ∧ model v = sample_model.
Proof.
  eexists. split; [vm_compute; reflexivity|].
  apply (proj1 (X2_verdict_names_mode_and_model (H:=sample_libs)
                  sample_message sample_model None None
                  (world_with bearer_env (Responded resp_pass)) st0 _)).
  vm_compute. reflexivity.
Defined.

Lemma X3_witness :
  ∃ v, fst (invoke_via_proxy (H:=sample_libs) sample_message sample_model
              None None (world_with bearer_env (Responded resp_refused)) st0)
       = Returned v
       ∧ blocked v = true ∧ blocked_by v = BEDROCK_GUARDRAIL
       ∧ response v = "[BLOCKED by Bedrock Guardrail] violates usage policy".
Proof.
  destruct (X3_gateway_400_is_first_layer (H:=sample_libs) sample_message
              sample_model None None
              (world_with bearer_env (Responded resp_refused)) resp_refused)
    as (v & Hv & Hb & Hby & Hr).
  - vm_compute. reflexivity.
  - reflexivity.
  - reflexivity.
  - reflexivity.
  - exists v. repeat split; assumption.
Defined.

Lemma X4_witness :
  fst (invoke_bedrock_direct (H:=sample_libs) sample_message sample_model
         None None (world_with bearer_env (Responded resp_unparsable)) st0)
  = Raised JSONDecodeError.
Proof.
  apply (proj1 (X4_direct_200_unusable_body (H:=sample_libs) sample_message
                  sample_model None None
                  (world_with bearer_env (Responded resp_unparsable))
                  resp_unparsable ltac:(vm_compute; reflexivity) eq_refl)).
  reflexivity.
Defined.

Lemma X5_witness :
  fst (invoke_via_proxy (H:=sample_libs) sample_message sample_model
         None None
         (world_with bearer_env (Responded resp_unavailable_no_duration)) st0)
  = Raised ValueError.
Proof.
  apply (X5_gateway_bad_duration_raises (H:=sample_libs) sample_message
           sample_model None None
           (world_with bearer_env (Responded resp_unavailable_no_duration))
           resp_unavailable_no_duration "n/a").
  - vm_compute. reflexivity.
  - reflexivity.
  - reflexivity.
  - reflexivity.
Defined.

Lemma X7_witness :
  ∃ rd rp,
    rd ∈ posted (trace (snd (invoke_bedrock_direct (H:=sample_libs)
                               sample_message sample_model (Some "gr-1") None
                               (world_with bearer_env (Responded resp_pass))
                               st0)))
    ∧ rp ∈ posted (trace (snd (invoke_via_proxy (H:=sample_libs)
                                 sample_message sample_model (Some "gr-1") None
                                 (world_with bearer_env (Responded resp_pass))
                                 st0)))
    ∧ req_headers rp !! "X-Target-Endpoint" = Some (req_url rd)
    ∧ req_content rp = req_content rd
    ∧ req_headers rp !! "Authorization" = req_headers rd !! "Authorization".
Proof.
  destruct (posted (trace (snd (invoke_bedrock_direct (H:=sample_libs)
                                  sample_message sample_model (Some "gr-1")
                                  None
                                  (world_with bearer_env (Responded resp_pass))
                                  st0))))
    as [|rd rest] eqn:Hd; [vm_compute in Hd; discriminate Hd|].
  destruct (posted (trace (snd (invoke_via_proxy (H:=sample_libs)
                                  sample_message sample_model (Some "gr-1")
                                  None
                                  (world_with bearer_env (Responded resp_pass))
                                  st0))))
    as [|rp rest'] eqn:Hp; [vm_compute in Hp; discriminate Hp|].
  assert (Hind : rd ∈ rd :: rest) by apply list_elem_of_here.
  assert (Hinp : rp ∈ rp :: rest') by apply list_elem_of_here.
  rewrite <- Hd in Hind. rewrite <- Hp in Hinp.
  destruct (X7_gateway_request_mirrors_direct (H:=sample_libs) sample_message
              sample_model (Some "gr-1") None
              (world_with bearer_env (Responded resp_pass)) rd rp Hind Hinp)
    as (Htarget & Hcontent & _ & Hfwd).
  exists rd, rp. split; [apply list_elem_of_here|].
  split; [apply list_elem_of_here|].
  split; [exact Htarget|]. split; [exact Hcontent|].
  apply Hfwd. unfold forward_keys. apply list_elem_of_here.
Defined.

Lemma X8_witness :
  ∃ req,
    req ∈ posted (trace (snd (invoke_bedrock_direct (H:=sample_libs)
                                sample_message sample_model (Some "gr-1") None
                                (world_with bearer_env (Responded resp_pass))
                                st0)))
    ∧ req_headers req !! "Authorization" = Some "Bearer ABSK-token"
    ∧ req_headers req !! "X-Amzn-Bedrock-GuardrailIdentifier" = Some "gr-1"
    ∧ req_headers req !! "X-Amzn-Bedrock-GuardrailVersion" = None.
Proof.
  destruct (posted (trace (snd (invoke_bedrock_direct (H:=sample_libs)
                                  sample_message sample_model (Some "gr-1")
                                  None
                                  (world_with bearer_env (Responded resp_pass))
                                  st0))))
    as [|req rest] eqn:Hposted; [vm_compute in Hposted; discriminate Hposted|].
  assert (Hin : req ∈ req :: rest) by apply list_elem_of_here.
  rewrite <- Hposted in Hin.
  destruct (X8_bearer_request_headers (H:=sample_libs) sample_message
              sample_model (Some "gr-1") None
              (world_with bearer_env (Responded resp_pass)) "ABSK-token" req)
    as (Hauth & _ & _ & Hgid & Hgver & _).
  - vm_compute. reflexivity.
  - discriminate.
  - exact Hin.
  - exists req. split; [apply list_elem_of_here|].
    split; [exact Hauth|]. split; [exact Hgid|exact Hgver].
Defined.

Lemma X9_witness :
  ∃ creds service region r,
    EvSign creds service region r
      ∈ trace (snd (invoke_via_proxy (H:=sample_libs) sample_message
                      sample_model None None
                      (world_with sigv4_env (Responded resp_pass)) st0))
    ∧ service = "bedrock" ∧ aws_method r = "POST"
    ∧ aws_url r = get_bedrock_endpoint region sample_model
    ∧ cred_token creds = None.
Proof.
  destruct (trace (snd (invoke_via_proxy (H:=sample_libs) sample_message
                          sample_model None None
                          (world_with sigv4_env (Responded resp_pass)) st0)))
    as [|ev rest] eqn:Htr; [vm_compute in Htr; discriminate Htr|].
  destruct ev as [creds service region r|req|v gid gver];
    [|vm_compute in Htr; discriminate Htr..].
  assert (Hin : EvSign creds service region r
                  ∈ EvSign creds service region r :: rest)
    by apply list_elem_of_here.
  rewrite <- Htr in Hin.
  destruct (X9_signed_request (H:=sample_libs) sample_message sample_model
              None None (world_with sigv4_env (Responded resp_pass))
              creds service region r (or_intror Hin))
    as (Hservice & _ & _ & _ & Htoken & Hmethod & Hurl & _).
  exists creds, service, region, r. split; [apply list_elem_of_here|].
  split; [exact Hservice|]. split; [exact Hmethod|].
  split; [exact Hurl|]. rewrite Htoken. vm_compute. reflexivity.
Defined.

Lemma X10_witness :
  invoke_via_proxy (H:=sample_libs) sample_message sample_model None None
    (world_with ∅ (Responded resp_pass)) st0
  = (Raised (KeyError "ETHICALZEN_API_KEY"), st0).
Proof.
  apply (proj2 (proj2 (X10_missing_setting (H:=sample_libs) sample_message
                         sample_model None None
                         (world_with ∅ (Responded resp_pass)) st0
                         "ETHICALZEN_API_KEY"))).
  vm_compute. reflexivity.
Defined.


Lemma X14_witness :
  snd (chat (H:=sample_libs) (sample_chat DIRECT)
         (world_with gateway_only_env (Responded resp_pass)) st0) = st0
  ∧ ∃ k, KeyError "AWS_ACCESS_KEY_ID" = KeyError k
         ∧ first_missing (world_with gateway_only_env (Responded resp_pass))
             (required_settings false
                (world_with gateway_only_env (Responded resp_pass)))
           = Some k.
Proof.
  apply (X14_chat_failure_details (H:=sample_libs) (sample_chat DIRECT)
           (world_with gateway_only_env (Responded resp_pass)) st0 500
           (MissingEnvironmentVariable (KeyError "AWS_ACCESS_KEY_ID"))).
  vm_compute. reflexivity.
Defined.

Lemma X15_witness :
  ∃ req,
    req ∈ posted (trace (snd (chat (H:=sample_libs) (sample_chat MODE_A)
                                (world_with bearer_env (Responded resp_pass))
                                st0)))
    ∧ req_url req
      = posted_url (world_with bearer_env (Responded resp_pass)) MODE_A
          sample_model
    ∧ req_timeout req = 30.
Proof.
  destruct (posted (trace (snd (chat (H:=sample_libs) (sample_chat MODE_A)
                                  (world_with bearer_env (Responded resp_pass))
                                  st0))))
    as [|req rest] eqn:Hposted; [vm_compute in Hposted; discriminate Hposted|].
  assert (Hin : req ∈ req :: rest) by apply list_elem_of_here.
  rewrite <- Hposted in Hin.
  destruct (X15_chat_routes_by_mode (H:=sample_libs) (sample_chat MODE_A)
              (world_with bearer_env (Responded resp_pass)) req Hin)
    as (Hurl & _ & Htimeout).
  exists req. split; [apply list_elem_of_here|].
  split; [exact Hurl|exact Htimeout].
Defined.

Lemma X16_witness :
  ∃ v m, fst (invoke_via_proxy (H:=sample_libs) sample_message sample_model
                None None
                (world_with bearer_env (Responded resp_gateway_block)) st0)
         = Returned v
         ∧ response v = "[BLOCKED by EthicalZen] " +:+ m.
Proof.
  destruct (fst (invoke_via_proxy (H:=sample_libs) sample_message sample_model
                   None None
                   (world_with bearer_env (Responded resp_gateway_block)) st0))
    as [v|exc] eqn:Hv; [|vm_compute in Hv; discriminate Hv].
  destruct (proj2 (X16_blocked_text_names_the_layer (H:=sample_libs)
                     sample_message sample_model None None
                     (world_with bearer_env (Responded resp_gateway_block))
                     st0 v) Hv) as [_ Hgateway].
  destruct Hgateway as [m Hm].
  - vm_compute in Hv. injection Hv as <-. reflexivity.
  - exists v, m. split; [reflexivity|exact Hm].
Defined.

Lemma X17_witness :
  ∃ r, fst (chat (H:=sample_libs) (sample_chat DIRECT)
              (world_with bearer_env (Responded resp_refused)) st0)
       = ChatOk r
       ∧ ev_mode (log_event_record r None None "2026-01-01T00:00:00+00:00")
         = "direct"
       ∧ ev_model (log_event_record r None None "2026-01-01T00:00:00+00:00")
         = sample_model.
Proof.
  eexists. split; [vm_compute; reflexivity|].
  destruct (X17_event_log_record (H:=sample_libs) (sample_chat DIRECT)
              (world_with bearer_env (Responded resp_refused)) st0 _
              "2026-01-01T00:00:00+00:00" eq_refl)
    as (Hmode & Hmodel & _).
  split; [exact Hmode|exact Hmodel].
Defined.

Lemma X19_witness :
  ∃ v, fst (invoke_bedrock_direct (H:=sample_libs) sample_message sample_model
              None None (world_with bearer_env (Responded resp_refused)) st0)
       = Returned v
       ∧ (blocked v = true
          ↔ status_code resp_refused = 400
            ∨ (status_code resp_refused = 200
               ∧ intervened resp_refused = true)).
Proof.
  eexists. split; [vm_compute; reflexivity|].
  apply (proj1 (X19_which_answers_block (H:=sample_libs) sample_message
                  sample_model None None
                  (world_with bearer_env (Responded resp_refused))
                  resp_refused _)).
  - vm_compute. reflexivity.
  - vm_compute. reflexivity.
Defined.
